(** * rigid-flows: densities, the OpenMM energy oracle and its differentiable bridge

    A shallow embedding of [rigid_flows/system.py] and [rigid_flows/density.py].
    Arrays are row-major [ndarray]s (a shape and flat data) over the real
    numbers; the OpenMM context is an explicit piece of state threaded through
    an error/state monad; Python exceptions are values of [exn]. *)

From Stdlib Require Import Reals Lra Lia DecimalString String Bool Arith List.
Import ListNotations.
Open Scope R_scope.

(** ** Flat vectors: the element-wise numpy/jax operations the code uses *)

Definition vec := list R.

(** [a.sum()] *)
Definition vsum (v : vec) : R := fold_right Rplus 0 v.

(** [jnp.square(a)] *)
Definition vsquare (v : vec) : vec := map (fun a => a * a) v.

(** [a - b], [a * b] on arrays of one shape *)
Definition vsub (a b : vec) : vec := map (fun p => fst p - snd p) (combine a b).
Definition vmul (a b : vec) : vec := map (fun p => fst p * snd p) (combine a b).

(** [-a], [a / c], [a * c], [c * a] with a scalar [c] *)
Definition vneg (a : vec) : vec := map Ropp a.
Definition vdiv_scalar (a : vec) (c : R) : vec := map (fun x => x / c) a.
Definition vmul_scalar (a : vec) (c : R) : vec := map (fun x => x * c) a.
Definition vscale (c : R) (a : vec) : vec := map (fun x => c * x) a.

(** Euclidean norm, the [‖.‖] of the cutoff properties. *)
Definition norm (v : vec) : R := sqrt (vsum (vsquare v)).

(** ** [cutoff_potential] (density.py, lines 131-158) *)

Module Cutoff.
Section Cutoff.

(** [jax.value_and_grad(potential)]: the wrapped potential is given by the
    function returning its value and its gradient at a point. *)
Variable value_and_grad_potential : vec -> R * vec.
Variable reference : vec.
Variable threshold : R.

Definition approximate_potential (inp : vec) : R :=
  0.5 * vsum (vsquare (vsub inp reference)).

(** Gradient of [approximate_potential], as
    [jax.value_and_grad(approximate_potential)] computes it. *)
Definition grad_approximate_potential (inp : vec) : vec := vsub inp reference.

(** Lines 139-147, from the value and gradient of the wrapped potential. *)
Definition select (original_grad : R * vec) (inp : vec) : R * vec :=
  let '(original, grad) := original_grad in
  let gnorm := sqrt (1e-12 + vsum (vsquare grad)) in
  let approx := approximate_potential inp in
  let grad_approx := grad_approximate_potential inp in
  let gnorm_approx := sqrt (1e-12 + vsum (vsquare grad_approx)) in
  let grad_approx := vmul_scalar (vdiv_scalar grad_approx gnorm_approx) threshold in
  let out := if Rgt_dec gnorm threshold then approx else original in
  let grad := if Rgt_dec gnorm threshold then grad_approx else grad in
  (out, grad).

Definition eval_fwd (inp : vec) : R * vec :=
  select (value_and_grad_potential inp) inp.

Definition eval_bwd (g_inp : vec) (g_out : R) : vec := vscale g_out g_inp.

(** The [jax.custom_vjp] function: its value is the first component of
    [eval_fwd], its vector-Jacobian product is [eval_bwd] on the residual. *)
Definition eval (inp : vec) : R := fst (eval_fwd inp).
Definition eval_vjp (inp : vec) (g_out : R) : vec := eval_bwd (snd (eval_fwd inp)) g_out.

(** [jax.grad(eval)]: the vector-Jacobian product at cotangent 1. *)
Definition eval_grad (inp : vec) : vec := eval_vjp inp 1.

End Cutoff.
End Cutoff.

(** ** Arrays with a shape *)

(** A numpy/jax array: its shape and its elements in row-major order. *)
Record ndarray : Type := mk_ndarray { shape : list nat; data : vec }.

Definition size_of (s : list nat) : nat := fold_right Nat.mul 1%nat s.

(** The shape describes the data (true of every array numpy or jax builds). *)
Definition well_shaped (a : ndarray) : Prop := length (data a) = size_of (shape a).

Definition shape_eq_dec : forall s t : list nat, {s = t} + {s <> t} :=
  list_eq_dec Nat.eq_dec.

(** Rows of [k] elements: the [n] leading-axis entries of row-major data. *)
Definition chunks (k n : nat) (d : vec) : list vec :=
  map (fun i => firstn k (skipn (i * k) d)) (seq 0 n).

(** [buf[i] = v]; the loops below only write at indices below [len(buf)]. *)
Fixpoint set_nth {A : Type} (i : nat) (v : A) (buf : list A) : list A :=
  match buf, i with
  | [], _ => []
  | _ :: rest, O => v :: rest
  | a :: rest, S j => a :: set_nth j v rest
  end.

(** [jnp.diag(box)] of a vector of three entries, and the rows [*box]
    unpacks from a 3x3 matrix. *)
Definition jnp_diag (b : ndarray) : ndarray :=
  let n := size_of (shape b) in
  mk_ndarray [n; n]
    (concat (map (fun i => map (fun j => if Nat.eqb i j then nth i (data b) 0 else 0)
                               (seq 0 n)) (seq 0 n))).

Definition rows (b : ndarray) : list vec :=
  chunks (nth 1 (shape b) 0%nat) (nth 0 (shape b) 0%nat) (data b).

(** ** Exceptions, the error policy and the state of the process *)

Inductive exn_class : Type :=
  | TypeError | ValueError | AssertionError | IndexError | ZeroDivisionError
  | NotImplementedError | RuntimeError | OpenMMException.

(** A raised exception; [msg] is [str(e)]. *)
Record exn : Type := Exn { cls : exn_class; msg : string }.

Inductive ErrorHandling : Type := RaiseException | LogWarning | Nothing.

(** [str] of a non-negative Python integer and of a shape tuple: [()],
    [(3,)], [(3, 3)]. *)
Definition str_int (n : nat) : string := NilEmpty.string_of_uint (Nat.to_uint n).

Definition str_tuple (s : list nat) : string :=
  match s with
  | [] => "()"
  | [n] => "(" ++ str_int n ++ ",)"
  | n :: rest =>
      "(" ++ str_int n ++ fold_right (fun m acc => ", " ++ str_int m ++ acc) ")" rest
  end%string.

(** The [openmm.Context] an [OpenMMEnergyModel] owns: the periodic box vectors
    and the particle positions last pushed into it. *)
Record Context : Type := mk_Context { periodicBoxVectors : list vec; positions : vec }.

(** What a call can change: the engine context and the records written by
    [logging.warning]. *)
Record World : Type := mk_World { context : Context; warnings : list string }.

(** Computations that read and write the [World] and may raise. *)
Definition M (A : Type) : Type := World -> World * (exn + A).

Definition ret {A : Type} (a : A) : M A := fun w => (w, inr a).
Definition raise {A : Type} (e : exn) : M A := fun w => (w, inl e).
Definition bind {A B : Type} (c : M A) (k : A -> M B) : M B :=
  fun w => match c w with
           | (w', inr a) => k a w'
           | (w', inl e) => (w', inl e)
           end.

Declare Scope py_scope.
Delimit Scope py_scope with py.
Notation "x <- c ;; k" := (bind c (fun x => k))
  (at level 61, c at next level, right associativity) : py_scope.
Notation "' p <- c ;; k" := (bind c (fun x => match x with p => k end))
  (at level 61, p pattern, c at next level, right associativity) : py_scope.
Notation "c ;; k" := (bind c (fun _ => k))
  (at level 61, right associativity) : py_scope.
Open Scope py_scope.

Definition lift {A : Type} (r : exn + A) : M A :=
  match r with inl e => raise e | inr a => ret a end.

(** [assert cond, message] *)
Definition assert {P Q : Prop} (cond : {P} + {Q}) (message : string) : M unit :=
  if cond then ret tt else raise (Exn AssertionError message).

(** [logging.warning(s)] *)
Definition logging_warning (s : string) : M unit :=
  fun w => (mk_World (context w) (warnings w ++ [s]), inr tt).

(** The size a [-1] stands for in [reshape]: the array's size divided by the
    product of the other axes, when that division is exact. *)
Definition infer_axis (size other : nat) (c : exn_class) : exn + nat :=
  if (other =? 0)%nat then inl (Exn c "cannot reshape array")
  else if (size mod other =? 0)%nat then inr (size / other)%nat
  else inl (Exn c "cannot reshape array").

(** ** The physics engine, as far as the code queries it *)

(** The OpenMM library behind [openmm.Context]: which calls it rejects (with
    the message of the exception it throws), how it places virtual sites, and
    the energy (kJ/mol) and per-atom forces (kJ/mol/nm, one entry per position
    coordinate) of a configuration in a periodic box. *)
Record OpenMM : Type := mk_OpenMM {
  setPeriodicBoxVectors_error : list vec -> option string;
  setPositions_error : vec -> option string;
  virtual_sites : vec -> vec;
  getState_error : list vec -> vec -> option string;
  potential_energy : list vec -> vec -> R;
  particle_forces : list vec -> vec -> vec
}.

(** What [np.empty] and [np.empty_like] hand out at each allocation of
    [compute_energies_and_forces]: arbitrary memory contents. *)
Record Uninitialized : Type := mk_Uninitialized {
  energies_buffer : nat -> R;
  forces_buffer : nat -> nat -> R;
  energy_scratch : nat -> R;
  force_scratch : nat -> nat -> R
}.

(** Modelled from the spec: [WaterModel] (systems/watermodel.py), of which the
    code reads the atom, molecule and site counts and the virtual-site mask. *)
Record WaterModel : Type := mk_WaterModel {
  n_atoms : nat;
  n_molecules : nat;
  n_sites : nat;
  vs_mask : ndarray
}.

(** [OpenMMEnergyModel]; its [context] is the one of the [World]. *)
Record OpenMMEnergyModel : Type := mk_OpenMMEnergyModel {
  kbT : R;
  model : WaterModel;
  error_handling : ErrorHandling
}.

Section Oracle.

Variable openmm : OpenMM.
Variable np_empty : Uninitialized.

(** *** Calls on [self.context] *)

Definition setPeriodicBoxVectors (b : list vec) : M unit :=
  fun w => match setPeriodicBoxVectors_error openmm b with
           | Some m => (w, inl (Exn OpenMMException m))
           | None => (mk_World (mk_Context b (positions (context w))) (warnings w), inr tt)
           end.

Definition setPositions (p : vec) : M unit :=
  fun w => match setPositions_error openmm p with
           | Some m => (w, inl (Exn OpenMMException m))
           | None => (mk_World (mk_Context (periodicBoxVectors (context w)) p) (warnings w), inr tt)
           end.

Definition computeVirtualSites : M unit :=
  fun w => (mk_World (mk_Context (periodicBoxVectors (context w))
                                 (virtual_sites openmm (positions (context w))))
                     (warnings w), inr tt).

(** [getState(getEnergy=True, getForces=True)], with the energy and the
    forces already taken in kJ/mol and kJ/mol/nm. *)
Definition getState : M (R * vec) :=
  fun w => let b := periodicBoxVectors (context w) in
           let p := positions (context w) in
           match getState_error openmm b p with
           | Some m => (w, inl (Exn OpenMMException m))
           | None => (w, inr (potential_energy openmm b p, particle_forces openmm b p))
           end.

(** Division of two Python floats. *)
Definition float_div (a b : R) : M R :=
  if Req_dec_T b 0 then raise (Exn ZeroDivisionError "float division by zero")
  else ret (a / b).

(** *** [OpenMMEnergyModel.compute_energies_and_forces] (system.py, 83-138) *)

(** [pos.reshape(-1, self.model.n_atoms, 3)], as the list of its samples. *)
Definition reshape_samples (natoms : nat) (pos : ndarray) : exn + list vec :=
  match infer_axis (length (data pos)) (natoms * 3) ValueError with
  | inl e => inl e
  | inr n => inr (chunks (natoms * 3) n (data pos))
  end.

(** The body of the [try] (lines 110-123). *)
Definition query (self : OpenMMEnergyModel) (p : vec) : M (R * vec) :=
  setPositions p ;;
  computeVirtualSites ;;
  state <- getState ;;
  energy <- float_div (fst state) (kbT self) ;;
  let force := vdiv_scalar (snd state) (kbT self) in
  ret (energy, force).

(** The [finally] clause (lines 133-136). *)
Definition store (self : OpenMMEnergyModel) (i : nat) (energy : R) (force : vec)
           (bufs : vec * list vec) : vec * list vec :=
  (set_nth i energy (fst bufs),
   set_nth i (vmul force (data (vs_mask (model self)))) (snd bufs)).

(** One iteration of the loop (lines 106-136).  When the handler re-raises,
    the [finally] clause still writes the buffers, which are then dropped
    with the frame. *)
Definition iteration (self : OpenMMEnergyModel) (i : nat) (p : vec)
           (bufs : vec * list vec) : M (vec * list vec) :=
  fun w =>
    let energy := energy_scratch np_empty i in
    let force := map (force_scratch np_empty i) (seq 0 (n_atoms (model self) * 3)) in
    match query self p w with
    | (w', inr (energy, force)) => (w', inr (store self i energy force bufs))
    | (w', inl e) =>
        match error_handling self with
        | RaiseException => (w', inl e)
        | LogWarning =>
            (logging_warning (msg e) ;; ret (store self i energy force bufs)) w'
        | Nothing => (w', inr (store self i energy force bufs))
        end
    end.

(** [for i in range(len(pos))], from index [i] on. *)
Fixpoint loop (self : OpenMMEnergyModel) (i : nat) (samples : list vec)
         (bufs : vec * list vec) : M (vec * list vec) :=
  match samples with
  | [] => ret bufs
  | p :: rest => bufs' <- iteration self i p bufs ;; loop self (S i) rest bufs'
  end.

(** [self.error_handling], under a name the argument [error_handling] of
    [compute_energies_and_forces] does not hide. *)
Let self_error_handling : OpenMMEnergyModel -> ErrorHandling := error_handling.

Definition compute_energies_and_forces (self : OpenMMEnergyModel) (pos : ndarray)
           (box : option ndarray) (error_handling : option ErrorHandling)
  : M (ndarray * ndarray) :=
  samples <- lift (reshape_samples (n_atoms (model self)) pos) ;;
  let n := length samples in
  let energies := map (energies_buffer np_empty) (seq 0 n) in
  let forces :=
    map (fun i => map (forces_buffer np_empty i) (seq 0 (n_atoms (model self) * 3)))
        (seq 0 n) in
  let error_handling :=
    match error_handling with
    | None => self_error_handling self
    | Some policy => policy
    end in
  match box with
  | Some b => assert (shape_eq_dec (shape b) [3; 3]%nat)
                     ("box.shape = " ++ str_tuple (shape b))%string ;;
              setPeriodicBoxVectors (rows b)
  | None => ret tt
  end ;;
  assert (shape_eq_dec (shape (vs_mask (model self))) [n_atoms (model self); 3]%nat) "" ;;
  bufs <- loop self 0 samples (energies, forces) ;;
  ret (mk_ndarray [n] (fst bufs),
       mk_ndarray [n; n_atoms (model self); 3]%nat (concat (snd bufs))).

End Oracle.

(** ** [wrap_openmm_model] (system.py, lines 148-198) *)

(** [model.model], under a name the argument [model] of [wrap_openmm_model]
    does not hide. *)
Definition water_model : OpenMMEnergyModel -> WaterModel := model.

(** [jnp.expand_dims(a, axis=0)] and [jnp.squeeze(a, axis=0)] *)
Definition expand_dims0 (a : ndarray) : ndarray := mk_ndarray (1%nat :: shape a) (data a).

Definition squeeze0 (a : ndarray) : exn + ndarray :=
  match shape a with
  | 1%nat :: s => inr (mk_ndarray s (data a))
  | _ => inl (Exn ValueError "cannot select an axis to squeeze out")
  end.

(** [jax.pure_callback(callback, shape_specs, pos_flat, box)]: the host
    function is run on the arguments and its results must have the declared
    shapes; an exception of the callback surfaces from the call. *)
Definition pure_callback
           (callback : ndarray -> option ndarray -> option ErrorHandling -> M (ndarray * ndarray))
           (shape_specs : list nat * list nat) (pos_flat : ndarray) (box : option ndarray)
  : M (ndarray * ndarray) :=
  out <- callback pos_flat box None ;;
  if shape_eq_dec (shape (fst out)) (fst shape_specs) then
    if shape_eq_dec (shape (snd out)) (snd shape_specs) then ret out
    else raise (Exn RuntimeError "Incorrect output shape for return value")
  else raise (Exn RuntimeError "Incorrect output shape for return value").

Section Bridge.

Variable openmm : OpenMM.
Variable np_empty : Uninitialized.
Variable model : OpenMMEnergyModel.

Definition compute_energy_and_forces (pos : ndarray) (box : option ndarray)
           (has_batch_dim : bool) : M (ndarray * ndarray) :=
  box <- match box with
         | Some b => assert (shape_eq_dec (shape b) [3%nat]) "" ;; ret (Some (jnp_diag b))
         | None => ret None
         end ;;
  pos <- (if negb has_batch_dim then
            assert (shape_eq_dec (shape pos)
                      [n_molecules (water_model model); n_sites (water_model model); 3%nat]) "" ;;
            ret (expand_dims0 pos)
          else
            assert (shape_eq_dec (tl (shape pos))
                      [n_molecules (water_model model); n_sites (water_model model); 3%nat]) "" ;;
            ret pos) ;;
  let batch := hd 0%nat (shape pos) in
  atoms <- lift (infer_axis (length (data pos)) (batch * 3) TypeError) ;;
  let pos_flat := mk_ndarray [batch; atoms; 3%nat] (data pos) in
  let shape_specs := ([batch], shape pos_flat) in
  out <- pure_callback (compute_energies_and_forces openmm np_empty model)
                       shape_specs pos_flat box ;;
  let energies := fst out in
  let forces := mk_ndarray (shape pos) (data (snd out)) in
  if negb has_batch_dim then
    energies <- lift (squeeze0 energies) ;;
    forces <- lift (squeeze0 forces) ;;
    ret (energies, forces)
  else ret (energies, forces).

(** The forward rule: the energy, and the force as residual. *)
Definition eval_fwd (pos : ndarray) (box : option ndarray) (has_batch_dim : bool)
  : M (ndarray * ndarray) :=
  out <- compute_energy_and_forces pos box has_batch_dim ;;
  ret (fst out, snd out).

(** The backward rule, [(-g * force,)], for a scalar cotangent [g]; its two
    leading arguments are the non-differentiated [box] and [has_batch_dim]. *)
Definition eval_bwd (_1 : option ndarray) (_2 : bool) (res : ndarray) (g : R) : ndarray :=
  let force := res in
  mk_ndarray (shape force) (vscale (- g) (data force)).

(** The [jax.custom_vjp] function [eval]: its value, and its
    vector-Jacobian product (forward rule, then backward rule on the
    residual). *)
Definition eval (pos : ndarray) (box : option ndarray) (has_batch_dim : bool) : M ndarray :=
  out <- eval_fwd pos box has_batch_dim ;;
  ret (fst out).

Definition eval_vjp (pos : ndarray) (box : option ndarray) (has_batch_dim : bool) (g : R)
  : M (ndarray * ndarray) :=
  out <- eval_fwd pos box has_batch_dim ;;
  ret (fst out, eval_bwd box has_batch_dim (snd out) g).

End Bridge.

(** ** Python objects that [TargetDensity.potential] passes around *)

(** What a call returns: an array or a pair of arrays. *)
Inductive pyvalue : Type :=
  | PyArray (a : ndarray)
  | PyPair (a b : ndarray).

(** A callable, by what a call with positional arguments and the keywords [box] and
    [has_batch_dim] does, and
    by what [jax.value_and_grad(f)] does on the same arguments. *)
Record callable : Type := mk_callable {
  call : list ndarray -> option ndarray -> option bool -> M pyvalue;
  call_value_and_grad : list ndarray -> option ndarray -> option bool -> M (ndarray * ndarray)
}.

Unset Elimination Schemes.
Inductive pyobject : Type :=
  | Callable (f : callable)
  | Tuple (items : list pyobject).
Set Elimination Schemes.

(** Binding of a call's arguments to the parameters
    [(pos, box, has_batch_dim)]. *)
Definition bind_arguments (args : list ndarray) (box : option ndarray)
           (has_batch_dim : option bool) : exn + (ndarray * option ndarray * bool) :=
  match args, box, has_batch_dim with
  | [pos], Some b, Some h => inr (pos, Some b, h)
  | [pos; b], None, Some h => inr (pos, Some b, h)
  | [], _, _ => inl (Exn TypeError "missing a required argument: 'pos'")
  | [_], None, _ => inl (Exn TypeError "missing a required argument: 'box'")
  | [_; _], Some _, _ => inl (Exn TypeError "got multiple values for argument 'box'")
  | _, _, None => inl (Exn TypeError "missing a required argument: 'has_batch_dim'")
  | _, _, _ => inl (Exn TypeError "too many positional arguments")
  end.

Section Wrap.

Variable openmm : OpenMM.
Variable np_empty : Uninitialized.
Variable model : OpenMMEnergyModel.

Definition eval_object : callable :=
  mk_callable
    (fun args box has_batch_dim =>
       a <- lift (bind_arguments args box has_batch_dim) ;;
       energy <- eval openmm np_empty model (fst (fst a)) (snd (fst a)) (snd a) ;;
       ret (PyArray energy))
    (fun args box has_batch_dim =>
       a <- lift (bind_arguments args box has_batch_dim) ;;
       eval_vjp openmm np_empty model (fst (fst a)) (snd (fst a)) (snd a) 1).

Definition compute_energy_and_forces_object : callable :=
  mk_callable
    (fun args box has_batch_dim =>
       a <- lift (bind_arguments args box has_batch_dim) ;;
       out <- compute_energy_and_forces openmm np_empty model
                (fst (fst a)) (snd (fst a)) (snd a) ;;
       ret (PyPair (fst out) (snd out)))
    (fun args box has_batch_dim =>
       a <- lift (bind_arguments args box has_batch_dim) ;;
       compute_energy_and_forces openmm np_empty model (fst (fst a)) (snd (fst a)) (snd a) ;;
       raise (Exn TypeError "Gradient only defined for scalar-output functions")).

(** [return eval, compute_energy_and_forces] *)
Definition wrap_openmm_model : pyobject :=
  Tuple [Callable eval_object; Callable compute_energy_and_forces_object].

End Wrap.

(** [functools.partial(func, box=box, has_batch_dim=has_batch_dim)]: refuses a
    [func] that is not callable; keywords of a later call override the stored
    ones. *)
Definition functools_partial (func : pyobject) (box : ndarray) (has_batch_dim : bool)
  : exn + callable :=
  match func with
  | Tuple _ => inl (Exn TypeError "the first argument must be callable")
  | Callable f =>
      let merge {A : Type} (given : option A) (stored : A) : option A :=
        match given with Some v => Some v | None => Some stored end in
      inr (mk_callable
             (fun args b h => call f args (merge b box) (merge h has_batch_dim))
             (fun args b h => call_value_and_grad f args (merge b box) (merge h has_batch_dim)))
  end.

(** ** Records of the densities *)

(** [SimulationBox] (system.py, lines 22-38); [min] defaults to
    [jnp.zeros(3)]. *)
Record SimulationBox : Type := mk_SimulationBox { max : ndarray; min : ndarray }.

Definition jnp_zeros (s : list nat) : ndarray := mk_ndarray s (repeat 0 (size_of s)).
Definition jnp_ones (s : list nat) : ndarray := mk_ndarray s (repeat 1 (size_of s)).
Definition jnp_full (s : list nat) (fill_value : R) : ndarray :=
  mk_ndarray s (repeat fill_value (size_of s)).

Definition SimulationBox_of (max : ndarray) : SimulationBox :=
  mk_SimulationBox max (jnp_zeros [3%nat]).

Definition size (b : SimulationBox) : ndarray :=
  mk_ndarray (shape (max b)) (vsub (data (max b)) (data (min b))).

(** Modelled from the spec: [State] (flow.py), the domain of [BaseDensity]:
    rotation quaternions, positions, three internal coordinates, auxiliaries
    and the box. *)
Module State.
Record t : Type := mk {
  rot : ndarray;
  pos : ndarray;
  ics : ndarray * ndarray * ndarray;
  aux : ndarray;
  box : SimulationBox
}.
End State.

(** Modelled from the spec: [AugmentedData] (data.py), the domain of
    [TargetDensity]. *)
Module AugmentedData.
Record t : Type := mk {
  pos : ndarray;
  aux : ndarray;
  sign : ndarray;
  box : SimulationBox;
  force : option ndarray
}.
End AugmentedData.

(** Modelled from the spec: [Data] (data.py), the loaded dataset: one
    position array and one box per frame, and optionally one force array. *)
Module Data.
Record t : Type := mk {
  pos : list ndarray;
  box : list ndarray;
  force : option (list ndarray)
}.
End Data.

(** [a[i]] on the leading axis. *)
Definition getitem (a : list ndarray) (i : nat) : exn + ndarray :=
  match nth_error a i with
  | Some x => inr x
  | None => inl (Exn IndexError "index is out of bounds")
  end.

(** [Transformed(obj, ldj)] of flox. *)
Record Transformed (T : Type) : Type := mk_Transformed { obj : T; ldj : ndarray }.
Arguments mk_Transformed {T} _ _.
Arguments obj {T} _.
Arguments ldj {T} _.

(** [jnp.sign] *)
Definition sign_of (x : R) : R :=
  if Rlt_dec 0 x then 1 else if Rlt_dec x 0 then -1 else 0.

(** [jax.nn.logsumexp] of a one-dimensional array: the maximum is taken out
    before exponentiating. *)
Definition amax (l : vec) : R :=
  match l with
  | [] => 0
  | a :: rest => fold_left Rmax rest a
  end.

Definition logsumexp (l : vec) : R :=
  ln (vsum (map (fun a => exp (a - amax l)) l)) + amax l.

(** [jax.nn.logsumexp(jnp.stack([a, b]), axis=0)] *)
Definition logsumexp_stack2 (a b : ndarray) : ndarray :=
  mk_ndarray (shape a) (map (fun p => logsumexp [fst p; snd p]) (combine (data a) (data b))).

Definition neg (a : ndarray) : ndarray := mk_ndarray (shape a) (vneg (data a)).

(** [rot * s] for [rot] of shape [(n, k)] and [s] of shape [(n, 1)]: row [i]
    of [rot] is multiplied by [s[i]]. *)
Definition mul_rows (rot s : ndarray) : ndarray :=
  let k := size_of (tl (shape rot)) in
  mk_ndarray (shape rot)
    (map (fun j => nth j (data rot) 0 * nth (j / k) (data s) 0)
         (seq 0 (length (data rot)))).

Section Densities.

(** Keys of [jax.random]; [split] is [jax.random.split] (the new key, then
    the key the chain keeps), [random_normal] is [jax.random.normal]. *)
Variable PRNGKey : Type.
Variable split : PRNGKey -> PRNGKey * PRNGKey.
Variable random_normal : PRNGKey -> list nat -> ndarray.

(** A distribution object of [tfp.distributions]. *)
Record Distribution : Type := mk_Distribution {
  log_prob : ndarray -> ndarray;
  sample : PRNGKey -> ndarray
}.

Variable VonMisesFisher : ndarray -> ndarray -> Distribution.
Variable Normal : ndarray -> ndarray -> Distribution.

(** [next(chain)] on a [key_chain] whose current key is [chain]. *)
Definition next (chain : PRNGKey) : PRNGKey * PRNGKey := split chain.

(** *** [BaseDensity] (density.py, lines 41-107) *)

Record BaseDensity : Type := mk_BaseDensity {
  base_box : SimulationBox;
  rot_model : Distribution;
  pos_model : Distribution;
  base_aux_model : Distribution
}.

Definition BaseDensity_init (box : SimulationBox)
           (rot_modes rot_concentration pos_means pos_stds aux_means aux_stds : ndarray)
  : BaseDensity :=
  mk_BaseDensity box (VonMisesFisher rot_modes rot_concentration)
                 (Normal pos_means pos_stds) (Normal aux_means aux_stds).

Definition BaseDensity_potential (self : BaseDensity) (inp : State.t) : R :=
  let rot_prob :=
    vsum (data (logsumexp_stack2 (log_prob (rot_model self) (State.rot inp))
                                 (log_prob (rot_model self) (neg (State.rot inp))))) in
  let pos_prob := vsum (data (log_prob (pos_model self) (State.pos inp))) in
  let aux_prob := vsum (data (log_prob (base_aux_model self) (State.aux inp))) in
  - (rot_prob + aux_prob + pos_prob).

Definition BaseDensity_sample (self : BaseDensity) (key : PRNGKey) : Transformed State.t :=
  let chain := key in
  let '(k, chain) := next chain in
  let rot := sample (rot_model self) k in
  let '(k, chain) := next chain in
  let rot :=
    mul_rows rot (let n := random_normal k [hd 0%nat (shape rot); 1%nat] in
                  mk_ndarray (shape n) (map sign_of (data n))) in
  let '(k, chain) := next chain in
  let pos := sample (pos_model self) k in
  let ics := (jnp_full [hd 0%nat (shape pos)] 0.09572,
              jnp_full [hd 0%nat (shape pos)] 0.09572,
              jnp_full [hd 0%nat (shape pos)] 1.824218) in
  let '(k, chain) := next chain in
  let aux := sample (base_aux_model self) k in
  let state := State.mk rot pos ics aux (base_box self) in
  let log_prob := BaseDensity_potential self state in
  mk_Transformed state (mk_ndarray [] [log_prob]).

End Densities.

(** ** [cutoff_potential] on callables, and [TargetDensity] (density.py, 166-211) *)

(** [cutoff_potential(potential, reference, threshold)] for a [potential]
    that is a Python callable: the function [eval] it returns takes the one
    argument [inp]; its forward rule is [Cutoff.select] on what
    [jax.value_and_grad(potential)(inp)] returns, and its gradient is
    [Cutoff.eval_bwd] at cotangent 1. *)
Definition cutoff_potential (potential : callable) (reference : ndarray) (threshold : R)
  : callable :=
  let eval_fwd (inp : ndarray) : M (ndarray * ndarray) :=
    og <- call_value_and_grad potential [inp] None None ;;
    let r := Cutoff.select (data reference) threshold
                           (hd 0 (data (fst og)), data (snd og)) (data inp) in
    ret (mk_ndarray [] [fst r], mk_ndarray (shape inp) (snd r)) in
  mk_callable
    (fun args box has_batch_dim =>
       match args, box, has_batch_dim with
       | [inp], None, None => out <- eval_fwd inp ;; ret (PyArray (fst out))
       | _, _, _ => raise (Exn TypeError "arguments do not match the signature (inp)")
       end)
    (fun args box has_batch_dim =>
       match args, box, has_batch_dim with
       | [inp], None, None =>
           out <- eval_fwd inp ;;
           ret (fst out, mk_ndarray (shape (snd out)) (Cutoff.eval_bwd (data (snd out)) 1))
       | _, _, _ => raise (Exn TypeError "arguments do not match the signature (inp)")
       end).

Section Target.

Variable PRNGKey : Type.
Variable Normal : ndarray -> ndarray -> Distribution PRNGKey.
Variable openmm : OpenMM.
Variable np_empty : Uninitialized.

(** Modelled from the spec: [SystemSpecification] (specs.py), of which the
    densities read the number of molecules. *)
Record SystemSpecification : Type := mk_SystemSpecification { num_molecules : nat }.

Record TargetDensity : Type := mk_TargetDensity {
  aux_model : Distribution PRNGKey;
  sys_specs : SystemSpecification;
  target_model : OpenMMEnergyModel;
  target_data : option Data.t;
  cutoff : option R
}.

Definition TargetDensity_init (auxiliary_shape : list nat) (sys_specs : SystemSpecification)
           (model : OpenMMEnergyModel) (data : option Data.t) (cutoff_threshold : option R)
  : TargetDensity :=
  let aux_means := jnp_zeros auxiliary_shape in
  let aux_stds := jnp_ones auxiliary_shape in
  mk_TargetDensity (Normal aux_means aux_stds) sys_specs model data cutoff_threshold.

(** The property [box] (lines 183-187), as a method on the object [self]:
    it returns the object as the call leaves it, and the value or the
    exception. *)
Definition TargetDensity_box (self : TargetDensity)
  : TargetDensity * (exn + SimulationBox) :=
  match target_data self with
  | None => (self, inl (Exn ValueError "Data not loaded."))
  | Some d =>
      match getitem (Data.box d) 0 with
      | inl e => (self, inl e)
      | inr b => (self, inr (SimulationBox_of b))
      end
  end.

(** [potential] (lines 189-211) *)
Definition TargetDensity_potential (self : TargetDensity) (inp : AugmentedData.t)
  : M ndarray :=
  let aux_prob := vsum (data (log_prob _ (aux_model self) (AugmentedData.aux inp))) in
  energy <- lift (functools_partial
                    (wrap_openmm_model openmm np_empty (target_model self))
                    (size (AugmentedData.box inp)) false) ;;
  energy <- match cutoff self with
            | Some c =>
                match target_data self with
                | None => raise (Exn ValueError "cutoff != None requires data.")
                | Some d =>
                    reference <- lift (getitem (Data.pos d) 0) ;;
                    ret (cutoff_potential energy reference c)
                end
            | None => ret energy
            end ;;
  pot <- call energy [AugmentedData.pos inp; size (AugmentedData.box inp)] None None ;;
  match pot with
  | PyArray a => ret (mk_ndarray (shape a) (map (fun x => - aux_prob + x) (data a)))
  | PyPair _ _ => raise (Exn TypeError "unsupported operand type(s) for +")
  end.

End Target.

(** ** What a query of the engine yields *)

Section Reported.

Variable openmm : OpenMM.

(** The engine takes the configuration [p] in the box [b]. *)
Definition accepted (b : list vec) (p : vec) : Prop :=
  setPositions_error openmm p = None
  /\ getState_error openmm b (virtual_sites openmm p) = None.

(** The state of the process after a query for [p]. *)
Definition after_query (w : World) (p : vec) : World :=
  mk_World (mk_Context (periodicBoxVectors (context w)) (virtual_sites openmm p))
           (warnings w).

(** The energy and the masked force stored for an accepted [p]. *)
Definition reported_energy (self : OpenMMEnergyModel) (b : list vec) (p : vec) : R :=
  potential_energy openmm b (virtual_sites openmm p) / kbT self.

Definition reported_force (self : OpenMMEnergyModel) (b : list vec) (p : vec) : vec :=
  vmul (vdiv_scalar (particle_forces openmm b (virtual_sites openmm p)) (kbT self))
       (data (vs_mask (model self))).

(** The box given to the oracle is a 3x3 matrix the engine takes. *)
Definition box_accepted (box : option ndarray) : Prop :=
  match box with
  | Some b => shape b = [3; 3]%nat /\ setPeriodicBoxVectors_error openmm (rows b) = None
  | None => True
  end.

(** The state of the process once the box passed to the oracle, if any,
    is installed. *)
Definition with_box (box : option ndarray) (w : World) : World :=
  match box with
  | Some b => mk_World (mk_Context (rows b) (positions (context w))) (warnings w)
  | None => w
  end.

End Reported.

(** ** Evaluating the configurations of a batch one at a time *)

(** [jnp.stack] of arrays of one shape. *)
Definition jnp_stack (l : list ndarray) : ndarray :=
  mk_ndarray (length l :: shape (hd (mk_ndarray [] []) l)) (concat (map data l)).

Section OneByOne.

Variable openmm : OpenMM.
Variable np_empty : Uninitialized.
Variable model : OpenMMEnergyModel.

(** The configurations of a batch of shape [(B, n_molecules, n_sites, 3)]. *)
Definition configurations (pos : ndarray) : list ndarray :=
  map (mk_ndarray (tl (shape pos)))
      (chunks (size_of (tl (shape pos))) (hd 0%nat (shape pos)) (data pos)).

(** Each configuration through the bridge without batch dimension, in
    order. *)
Fixpoint one_by_one (cs : list ndarray) (box : option ndarray)
  : M (list (ndarray * ndarray)) :=
  match cs with
  | [] => ret []
  | c :: rest =>
      r <- compute_energy_and_forces openmm np_empty model c box false ;;
      rs <- one_by_one rest box ;;
      ret (r :: rs)
  end.

End OneByOne.

(** ** The masking step on entries that need not be finite *)

Module IEEE.

(** A float32 entry as far as the masking step can tell entries apart: a
    finite number (its rounding left aside, the two zeros identified), an
    infinity, or NaN. *)
Inductive float : Type :=
  | Finite (x : R)
  | Infinity (negative : bool)
  | NaN.

Definition negative (x : R) : bool := if Rlt_dec x 0 then true else false.

(** The IEEE 754 product: NaN propagates, and an infinity times zero is
    NaN. *)
Definition mul (a b : float) : float :=
  match a, b with
  | NaN, _ => NaN
  | _, NaN => NaN
  | Finite x, Finite y => Finite (x * y)
  | Infinity s, Infinity s' => Infinity (xorb s s')
  | Infinity s, Finite y => if Req_dec_T y 0 then NaN else Infinity (xorb s (negative y))
  | Finite x, Infinity s => if Req_dec_T x 0 then NaN else Infinity (xorb (negative x) s)
  end.

(** The IEEE 754 quotient by a finite divisor that is not zero, as
    [force / self.kbT] is once the division of the energy has passed. *)
Definition div_by (c : R) (a : float) : float :=
  match a with
  | Finite x => Finite (x / c)
  | Infinity s => Infinity (xorb s (negative c))
  | NaN => NaN
  end.

(** [force * self.model.vs_mask] (lines 134-136). *)
Definition masked (force mask : list float) : list float :=
  map (fun p => mul (fst p) (snd p)) (combine force mask).

(** The row stored for a sample whose query succeeded (lines 118-123, then
    134-136): [forces[i] = (raw / kbT) * vs_mask]. *)
Definition stored_force (kbT : R) (raw mask : list float) : list float :=
  masked (map (div_by kbT) raw) mask.

(** The row stored for a sample whose query failed under a policy that does
    not re-raise (line 107, then 134-136): the uninitialised [force] times
    the mask. *)
Definition stored_scratch (scratch mask : list float) : list float :=
  masked scratch mask.

End IEEE.

(** ** Small concrete instances, used to run the definitions *)

(** [P(x) = 2 * x[0]] on one coordinate, with gradient [[2]], and the constant
    potential [P(x) = 3] with gradient [[0]]. *)
Definition linear_potential : vec -> R * vec := fun x => (2 * nth 0 x 0, [2]).
Definition constant_potential : vec -> R * vec := fun _ => (3, [0]).

(** A water model of one molecule with one site, whose only atom is real
    (mask 1), and one of one molecule with two sites, the second a virtual
    site (mask 0). *)
Definition one_atom_model : WaterModel :=
  mk_WaterModel 1 1 1 (mk_ndarray [1; 3]%nat [1; 1; 1]).
Definition two_site_model : WaterModel :=
  mk_WaterModel 2 1 2 (mk_ndarray [2; 3]%nat [1; 1; 1; 0; 0; 0]).

(** An engine that fails on configurations whose first coordinate is
    negative; elsewhere the energy is the first coordinate and the force on
    every coordinate is 5. *)
Definition picky_openmm : OpenMM :=
  mk_OpenMM (fun _ => None) (fun _ => None) (fun p => p)
            (fun _ p => if Rlt_dec (nth 0 p 0) 0 then Some "engine failure"%string else None)
            (fun _ p => nth 0 p 0)
            (fun _ p => map (fun _ => 5) p).

(** Fresh buffers that happen to hold 7 everywhere. *)
Definition sevens : Uninitialized :=
  mk_Uninitialized (fun _ => 7) (fun _ _ => 7) (fun _ => 7) (fun _ _ => 7).

Definition unit_box : list vec := [[1; 0; 0]; [0; 1; 0]; [0; 0; 1]].
Definition fresh_world : World := mk_World (mk_Context unit_box [0; 0; 0]) [].

(** An engine for [two_site_model] that fails on configurations whose first
    coordinate is negative; it reports the raw force 5 on the real atom and 9
    on the virtual site. *)
Definition two_site_openmm : OpenMM :=
  mk_OpenMM (fun _ => None) (fun _ => None) (fun p => p)
            (fun _ p => if Rlt_dec (nth 0 p 0) 0 then Some "engine failure"%string else None)
            (fun _ p => nth 0 p 0)
            (fun _ _ => [5; 5; 5; 9; 9; 9]).

(** The oracle for [two_site_model] at [kbT = 2], a batch of two
    configurations of which the second is rejected, a batch of two accepted
    configurations, one configuration, and a box. *)
Definition two_site_oracle : OpenMMEnergyModel :=
  mk_OpenMMEnergyModel 2 two_site_model LogWarning.
Definition half_rejected_batch : ndarray :=
  mk_ndarray [2; 2; 3]%nat [1; 0; 0; 0; 0; 0; -1; 0; 0; 0; 0; 0].
Definition accepted_batch : ndarray :=
  mk_ndarray [2; 1; 2; 3]%nat [1; 0; 0; 0; 0; 0; 4; 0; 0; 0; 0; 0].
Definition one_configuration : ndarray :=
  mk_ndarray [1; 2; 3]%nat [1; 0; 0; 0; 0; 0].
Definition cubic_box : ndarray := mk_ndarray [3%nat] [3; 3; 3].

(** ** What one pass of the oracle's loop leaves behind *)

Section Outcome.

Variable openmm : OpenMM.
Variable np_empty : Uninitialized.
Variable self : OpenMMEnergyModel.

(** The exception the body of the [try] raises for [p] in the box [b], if
    any: [setPositions], then [getState], then the division by [kbT]. *)
Definition failure (b : list vec) (p : vec) : option exn :=
  match setPositions_error openmm p with
  | Some m => Some (Exn OpenMMException m)
  | None =>
      match getState_error openmm b (virtual_sites openmm p) with
      | Some m => Some (Exn OpenMMException m)
      | None =>
          if Req_dec_T (kbT self) 0
          then Some (Exn ZeroDivisionError "float division by zero")
          else None
      end
  end.

(** The state of the process after the body of the [try] ran for [p]: the
    context keeps its positions when [setPositions] refused [p]. *)
Definition after_attempt (w : World) (p : vec) : World :=
  match setPositions_error openmm p with
  | Some _ => w
  | None => after_query openmm w p
  end.

(** The state of the process after the whole iteration for [p], under a
    policy that does not re-raise. *)
Definition after_iteration (b : list vec) (w : World) (p : vec) : World :=
  match failure b p, error_handling self with
  | Some e, LogWarning =>
      mk_World (context (after_attempt w p)) (warnings (after_attempt w p) ++ [msg e])
  | _, _ => after_attempt w p
  end.

(** The entries the [finally] clause stores for sample number [i]. *)
Definition written_energy (b : list vec) (ip : nat * vec) : R :=
  match failure b (snd ip) with
  | Some _ => energy_scratch np_empty (fst ip)
  | None => reported_energy openmm self b (snd ip)
  end.

Definition written_force (b : list vec) (ip : nat * vec) : vec :=
  match failure b (snd ip) with
  | Some _ =>
      vmul (map (force_scratch np_empty (fst ip)) (seq 0 (n_atoms (model self) * 3)))
           (data (vs_mask (model self)))
  | None => reported_force openmm self b (snd ip)
  end.

(** The samples with their indices, from index [i] on. *)
Definition indexed (i : nat) (samples : list vec) : list (nat * vec) :=
  combine (seq i (length samples)) samples.

(** The messages of the samples that fail, in order. *)
Definition logged (b : list vec) (samples : list vec) : list string :=
  flat_map (fun p => match failure b p with Some e => [msg e] | None => [] end) samples.

End Outcome.

(** ** [OpenMMEnergyModel.set_box] (system.py, lines 79-81) *)


Section SetBox.

Variable openmm : OpenMM.


End SetBox.

(** ** [TargetDensity.sample] (density.py, lines 213-249) *)

(** [a.reshape(-1, 4, 3)] *)
Definition reshape_sites (a : ndarray) : exn + ndarray :=
  match infer_axis (length (data a)) 12 ValueError with
  | inl e => inl e
  | inr n => inr (mk_ndarray [n; 4; 3]%nat (data a))
  end.

Section TargetSample.

Variable PRNGKey : Type.
Variable split : PRNGKey -> PRNGKey * PRNGKey.
Variable random_normal : PRNGKey -> list nat -> ndarray.

(** [jax.random.randint(key, minval=.., maxval=.., shape=())] *)
Variable random_randint : PRNGKey -> nat -> nat -> nat.

Definition TargetDensity_sample (self : TargetDensity PRNGKey) (key : PRNGKey)
  : exn + Transformed AugmentedData.t :=
  match target_data PRNGKey self with
  | None =>
      inl (Exn NotImplementedError "Sampling without provided data is not implemented.")
  | Some d =>
      let chain := key in
      let '(k, chain) := next PRNGKey split chain in
      let idx := random_randint k 0 (length (Data.pos d)) in
      match getitem (Data.box d) idx with
      | inl e => inl e
      | inr b =>
          let box := SimulationBox_of b in
          match getitem (Data.pos d) idx with
          | inl e => inl e
          | inr p =>
              match reshape_sites p with
              | inl e => inl e
              | inr pos =>
                  match
                    match Data.force d with
                    | Some f =>
                        match getitem f idx with
                        | inl e => inl e
                        | inr x => inr (Some x)
                        end
                    | None => inr None
                    end
                  with
                  | inl e => inl e
                  | inr force =>
                      let '(k, chain) := next PRNGKey split chain in
                      let aux := sample PRNGKey (aux_model PRNGKey self) k in
                      let '(k, chain) := next PRNGKey split chain in
                      let sign :=
                        let n := random_normal k
                                   [num_molecules (sys_specs PRNGKey self); 1%nat] in
                        mk_ndarray (shape n) (map sign_of (data n)) in
                      inr (mk_Transformed (AugmentedData.mk pos aux sign box force)
                                          (jnp_zeros []))
                  end
              end
          end
      end
  end.

End TargetSample.

(** ** [BaseDensity.from_specs] (density.py, lines 109-128) *)

(** [jnp.tile(row[None], (n, 1))]: [n] copies of [row], one per line. *)
Definition jnp_tile_rows (row : vec) (n : nat) : ndarray :=
  mk_ndarray [n; length row] (concat (repeat row n)).

(** [c * a] for a scalar [c] *)
Definition scale_array (c : R) (a : ndarray) : ndarray :=
  mk_ndarray (shape a) (vscale c (data a)).

Record BaseSpecification : Type := mk_BaseSpecification { rot_concentration : R }.

Section BaseFromSpecs.

Variable PRNGKey : Type.
Variable VonMisesFisher : ndarray -> ndarray -> Distribution PRNGKey.
Variable Normal : ndarray -> ndarray -> Distribution PRNGKey.

Definition BaseDensity_from_specs (system_specs : SystemSpecification)
           (base_specs : BaseSpecification) (box : SimulationBox)
           (auxiliary_shape : list nat) : BaseDensity PRNGKey :=
  BaseDensity_init PRNGKey VonMisesFisher Normal box
    (jnp_tile_rows [1; 0; 0; 0] (num_molecules system_specs))
    (scale_array (rot_concentration base_specs) (jnp_ones [num_molecules system_specs]))
    (jnp_zeros [num_molecules system_specs; 3%nat])
    (jnp_ones [num_molecules system_specs; 3%nat])
    (jnp_zeros auxiliary_shape)
    (jnp_ones auxiliary_shape).

End BaseFromSpecs.

(** ** [OpenMMEnergyModel.__init__] and [from_specs] (system.py, 48-77, 140-145) *)

Section Construction.

Variable openmm : OpenMM.

(** [unit.MOLAR_GAS_CONSTANT_R] in kJ/(mol K). *)
Variable MOLAR_GAS_CONSTANT_R : R.

(** Modelled from the spec: the default box vectors and positions of a
    [WaterModel], its loader, and the path, the name and the temperature of
    a [SystemSpecification]. *)
Variable model_box : WaterModel -> list vec.
Variable model_positions : WaterModel -> vec.
Variable load_from_json : string -> exn + WaterModel.
Variable specs_path : SystemSpecification -> string.
Variable specs_str : SystemSpecification -> string.
Variable specs_temperature : SystemSpecification -> R.

(** The constructor: [kbT], then a new context that receives the box vectors
    and the positions of the model; [error_handling] defaults to
    [LogWarning].  When a call on the new context raises, no oracle exists
    and the state is the one before the call. *)
Definition OpenMMEnergyModel_init (model : WaterModel) (temperature : R)
           (error_handling : option ErrorHandling) : M OpenMMEnergyModel :=
  fun w =>
    let kbT := MOLAR_GAS_CONSTANT_R * temperature in
    let error_handling :=
      match error_handling with Some policy => policy | None => LogWarning end in
    match (setPeriodicBoxVectors openmm (model_box model) ;;
           setPositions openmm (model_positions model))
            (mk_World (mk_Context [] []) (warnings w)) with
    | (w', inr _) => (w', inr (mk_OpenMMEnergyModel kbT model error_handling))
    | (_, inl e) => (w, inl e)
    end.

(** [from_specs]; the record of [logging.info] is not a warning and is not
    kept. *)
Definition OpenMMEnergyModel_from_specs (specs : SystemSpecification)
  : M OpenMMEnergyModel :=
  let path := (specs_path specs ++ "/model-" ++ specs_str specs ++ ".json")%string in
  model <- lift (load_from_json path) ;;
  OpenMMEnergyModel_init model (specs_temperature specs) None.

End Construction.

(** ** More concrete instances *)

(** The oracle for [two_site_model] under the policy [RaiseException], a
    batch of five entries, a box that is not a matrix, a model whose mask has
    the wrong shape, and the simulation box of [cubic_box]. *)
Definition raising_oracle : OpenMMEnergyModel :=
  mk_OpenMMEnergyModel 2 two_site_model RaiseException.
Definition ragged_batch : ndarray := mk_ndarray [5%nat] [1; 0; 0; 0; 0].
Definition flat_mask_oracle : OpenMMEnergyModel :=
  mk_OpenMMEnergyModel 2 (mk_WaterModel 2 1 2 (mk_ndarray [6%nat] [1; 1; 1; 0; 0; 0]))
                       LogWarning.

(** Keys that are counters, distributions that return their argument and
    sample zeros, and a dataset of one frame of four sites. *)
Definition counter_split (k : nat) : nat * nat := (k, S k).
Definition identity_distribution : Distribution nat :=
  mk_Distribution nat (fun a => a) (fun _ => jnp_zeros [1%nat]).
Definition one_frame : Data.t :=
  Data.mk [mk_ndarray [12%nat] [0; 0; 0; 1; 0; 0; 0; 1; 0; 0; 0; 1]] [cubic_box] None.
Definition one_frame_density : TargetDensity nat :=
  mk_TargetDensity nat identity_distribution (mk_SystemSpecification 1) two_site_oracle
                   (Some one_frame) None.

(** * Properties *)

(** ** Element-wise operations *)

Lemma vsum_vsquare_nonneg (v : vec) : 0 <= vsum (vsquare v).
Proof.
  induction v as [|a v IH]; simpl; [lra|]. nra.
Qed.

Lemma vscale_one (v : vec) : vscale 1 v = v.
Proof.
  unfold vscale. induction v as [|a v IH]; simpl; [reflexivity|].
  rewrite IH. f_equal. lra.
Qed.

Lemma vsum_vsquare_rescaled (v : vec) (c t : R) :
  vsum (vsquare (vmul_scalar (vdiv_scalar v c) t)) = (t / c) * (t / c) * vsum (vsquare v).
Proof.
  induction v as [|a v IH]; simpl; [lra|].
  fold (vsum (vsquare (vmul_scalar (vdiv_scalar v c) t))). rewrite IH.
  fold (vsum (vsquare v)). unfold Rdiv. ring.
Qed.

(** The regularised norm [sqrt(1e-12 + sum(g^2))] of the code is positive and
    strictly above the Euclidean norm. *)
Lemma regularised_norm_pos (v : vec) : 0 < sqrt (1e-12 + vsum (vsquare v)).
Proof.
  apply sqrt_lt_R0. pose proof (vsum_vsquare_nonneg v). lra.
Qed.

Lemma norm_lt_regularised (v : vec) : norm v < sqrt (1e-12 + vsum (vsquare v)).
Proof.
  unfold norm. apply sqrt_lt_1_alt. pose proof (vsum_vsquare_nonneg v). lra.
Qed.

Lemma norm_rescaled (v : vec) (c t : R) :
  0 < c -> 0 <= t ->
  norm (vmul_scalar (vdiv_scalar v c) t) = t * (norm v / c).
Proof.
  intros Hc Ht. unfold norm. rewrite vsum_vsquare_rescaled.
  assert (Hq : 0 <= t / c).
  { unfold Rdiv. apply Rmult_le_pos; [exact Ht|]. left. now apply Rinv_0_lt_compat. }
  rewrite sqrt_mult; [| nra | apply vsum_vsquare_nonneg].
  rewrite sqrt_square by exact Hq. unfold Rdiv. ring.
Qed.

(** ** The cutoff potential *)

Section CutoffProperties.

Variable value_and_grad_potential : vec -> R * vec.
Variable reference : vec.
Variable threshold : R.

Let fwd := Cutoff.eval_fwd value_and_grad_potential reference threshold.

(** Which branch [jnp.where] takes. *)
Lemma eval_fwd_above (inp : vec) :
  sqrt (1e-12 + vsum (vsquare (snd (value_and_grad_potential inp)))) > threshold ->
  fwd inp =
    (Cutoff.approximate_potential reference inp,
     vmul_scalar
       (vdiv_scalar (Cutoff.grad_approximate_potential reference inp)
          (sqrt (1e-12 + vsum (vsquare (Cutoff.grad_approximate_potential reference inp)))))
       threshold).
Proof.
  intros H. unfold fwd, Cutoff.eval_fwd, Cutoff.select.
  destruct (value_and_grad_potential inp) as [original grad]. simpl in H.
  destruct (Rgt_dec _ threshold) as [_|N]; [reflexivity | contradiction].
Qed.

Lemma eval_fwd_below (inp : vec) :
  sqrt (1e-12 + vsum (vsquare (snd (value_and_grad_potential inp)))) <= threshold ->
  fwd inp = value_and_grad_potential inp.
Proof.
  intros H. unfold fwd, Cutoff.eval_fwd, Cutoff.select.
  destruct (value_and_grad_potential inp) as [original grad]. simpl in H.
  destruct (Rgt_dec _ threshold) as [G|_]; [lra | reflexivity].
Qed.

(** C3 (amended): where the norm of the wrapped potential's gradient exceeds
    the threshold [t >= 0], the gradient of the cutoff potential is
    [(x - x0) / sqrt(1e-12 + |x - x0|^2) * t]; its norm is
    [t * |x - x0| / sqrt(1e-12 + |x - x0|^2)], which is at most [t]. *)
Theorem cutoff_gradient_norm_above_threshold (inp : vec) :
  0 <= threshold ->
  norm (snd (value_and_grad_potential inp)) > threshold ->
  let d := Cutoff.grad_approximate_potential reference inp in
  let n_Q := sqrt (1e-12 + vsum (vsquare d)) in
  let g := Cutoff.eval_grad value_and_grad_potential reference threshold inp in
  g = vmul_scalar (vdiv_scalar d n_Q) threshold
  /\ norm g = threshold * (norm d / n_Q)
  /\ norm g <= threshold.
Proof.
  intros Ht Hn d n_Q g.
  assert (Hg : g = vmul_scalar (vdiv_scalar d n_Q) threshold).
  { unfold g, Cutoff.eval_grad, Cutoff.eval_vjp, Cutoff.eval_bwd.
    rewrite vscale_one. fold fwd. rewrite eval_fwd_above; [reflexivity|].
    pose proof (norm_lt_regularised (snd (value_and_grad_potential inp))). lra. }
  assert (Hpos : 0 < n_Q) by apply regularised_norm_pos.
  assert (Hlt : norm d < n_Q) by apply norm_lt_regularised.
  assert (Hd : 0 <= norm d) by apply sqrt_pos.
  assert (Hnorm : norm g = threshold * (norm d / n_Q)).
  { rewrite Hg. now apply norm_rescaled. }
  assert (Hq : 0 <= norm d / n_Q < 1).
  { split.
    - unfold Rdiv. apply Rmult_le_pos; [exact Hd|]. left. now apply Rinv_0_lt_compat.
    - apply Rmult_lt_reg_r with n_Q; [exact Hpos|].
      unfold Rdiv. rewrite Rmult_assoc, Rinv_l by lra. lra. }
  repeat split; try assumption; rewrite Hnorm; nra.
Qed.

(** C4 (amended): where the regularised norm [sqrt(1e-12 + |grad P(x)|^2)]
    of the wrapped potential's gradient is at most the threshold, the
    cutoff potential returns the value and the gradient of the wrapped
    potential unchanged. *)
Theorem cutoff_exact_below_threshold (inp : vec) :
  sqrt (1e-12 + vsum (vsquare (snd (value_and_grad_potential inp)))) <= threshold ->
  Cutoff.eval value_and_grad_potential reference threshold inp
    = fst (value_and_grad_potential inp)
  /\ Cutoff.eval_grad value_and_grad_potential reference threshold inp
    = snd (value_and_grad_potential inp).
Proof.
  intros H.
  unfold Cutoff.eval, Cutoff.eval_grad, Cutoff.eval_vjp, Cutoff.eval_bwd.
  rewrite vscale_one. fold fwd. rewrite eval_fwd_below by exact H. split; reflexivity.
Qed.

End CutoffProperties.

Lemma norm_singleton (a : R) : 0 <= a -> norm [a] = a.
Proof.
  intros Ha. unfold norm. simpl. rewrite Rplus_0_r. now apply sqrt_square.
Qed.

(** C3, as stated, fails at the reference configuration: the gradient of the
    linear potential has norm 2 > 1 there, and the gradient the cutoff
    potential returns is the zero vector, of norm 0 and not 1. *)
Lemma cutoff_gradient_norm_differs_at_reference :
  norm (snd (linear_potential [0])) > 1
  /\ norm (Cutoff.eval_grad linear_potential [0] 1 [0]) <> 1.
Proof.
  assert (Hn : norm (snd (linear_potential [0])) > 1).
  { simpl. rewrite norm_singleton; lra. }
  split; [exact Hn|].
  unfold Cutoff.eval_grad, Cutoff.eval_vjp, Cutoff.eval_bwd.
  rewrite vscale_one, eval_fwd_above.
  - simpl. unfold norm. simpl.
    replace ((0 - 0) / sqrt (1e-12 + ((0 - 0) * (0 - 0) + 0)) * 1) with 0
      by (unfold Rdiv; ring).
    replace (0 * 0 + 0) with 0 by ring. rewrite sqrt_0. lra.
  - pose proof (norm_lt_regularised (snd (linear_potential [0]))). lra.
Qed.

Lemma cutoff_gradient_norm_above_threshold_witness :
  let d := Cutoff.grad_approximate_potential [0] [3] in
  let n_Q := sqrt (1e-12 + vsum (vsquare d)) in
  let g := Cutoff.eval_grad linear_potential [0] 1 [3] in
  g = vmul_scalar (vdiv_scalar d n_Q) 1
  /\ norm g = 1 * (norm d / n_Q)
  /\ norm g <= 1.
Proof.
  apply (cutoff_gradient_norm_above_threshold linear_potential [0] 1 [3]).
  - lra.
  - simpl. rewrite norm_singleton; lra.
Defined.

(** C4, as stated, fails for a threshold below [1e-6]: the constant potential
    has gradient norm 0 <= 1e-7, yet the regularised norm [sqrt(1e-12)]
    exceeds 1e-7 and the cutoff potential returns the quadratic surrogate
    (0.5 at distance 1 from the reference), not the value 3. *)
Lemma cutoff_not_exact_below_small_threshold :
  norm (snd (constant_potential [1])) <= 1e-7
  /\ Cutoff.eval constant_potential [0] 1e-7 [1] <> fst (constant_potential [1]).
Proof.
  split.
  - simpl. rewrite norm_singleton; lra.
  - unfold Cutoff.eval. rewrite eval_fwd_above.
    + simpl. unfold Cutoff.approximate_potential. simpl. lra.
    + simpl.
      assert (H : sqrt (1e-7 * 1e-7) < sqrt (1e-12 + (0 * 0 + 0)))
        by (apply sqrt_lt_1_alt; lra).
      rewrite sqrt_square in H; lra.
Qed.

Lemma cutoff_exact_below_threshold_witness :
  Cutoff.eval constant_potential [0] 1 [1] = fst (constant_potential [1])
  /\ Cutoff.eval_grad constant_potential [0] 1 [1] = snd (constant_potential [1]).
Proof.
  apply (cutoff_exact_below_threshold constant_potential [0] 1 [1]).
  simpl. rewrite <- sqrt_1 at 2. apply sqrt_le_1_alt. lra.
Defined.

(** ** The gradient of the quadratic surrogate *)

Lemma quadratic_derivative (r c x : R) :
  derivable_pt_lim (fun t => 0.5 * ((t - r) * (t - r) + c)) x (x - r).
Proof.
  replace 0.5 with (/ 2) by lra.
  intros eps Heps. exists (mkposreal eps Heps). intros h Hh Hlt. simpl in Hlt.
  replace ((/ 2 * ((x + h - r) * (x + h - r) + c) - / 2 * ((x - r) * (x - r) + c)) / h
           - (x - r)) with (/ 2 * h) by (field; exact Hh).
  rewrite Rabs_mult, (Rabs_pos_eq (/ 2)) by lra. pose proof (Rabs_pos h). lra.
Qed.

Lemma shifted_derivative (f : R -> R) (c x l : R) :
  derivable_pt_lim (fun t => 0.5 * f t) x l ->
  derivable_pt_lim (fun t => 0.5 * (c + f t)) x l.
Proof.
  replace 0.5 with (/ 2) by lra.
  intros H eps Heps. destruct (H eps Heps) as [delta Hd]. exists delta. intros h Hh Hlt.
  replace ((/ 2 * (c + f (x + h)) - / 2 * (c + f x)) / h)
    with ((/ 2 * f (x + h) - / 2 * f x) / h) by (field; exact Hh).
  now apply Hd.
Qed.

(** [grad_approximate_potential] is the gradient of [approximate_potential]:
    its entry [i] is the derivative of the surrogate along coordinate [i]. *)
Lemma grad_approximate_potential_correct (reference inp : vec) (i : nat) :
  (i < length inp)%nat -> (i < length reference)%nat ->
  derivable_pt_lim (fun t => Cutoff.approximate_potential reference (set_nth i t inp))
                   (nth i inp 0)
                   (nth i (Cutoff.grad_approximate_potential reference inp) 0).
Proof.
  unfold Cutoff.approximate_potential, Cutoff.grad_approximate_potential.
  revert reference i. induction inp as [|x xs IH]; intros [|r rs] i Hi Hr;
    simpl in Hi, Hr; try lia.
  destruct i as [|i]; simpl.
  - apply quadratic_derivative.
  - apply shifted_derivative. apply IH; lia.
Qed.

(** ** The base density *)

Lemma logsumexp_pair_comm (a b : R) : logsumexp [a; b] = logsumexp [b; a].
Proof.
  unfold logsumexp, amax. simpl. rewrite (Rmax_comm b a). f_equal. f_equal. ring.
Qed.

Lemma logsumexp_stack2_data_comm (a b : ndarray) :
  data (logsumexp_stack2 a b) = data (logsumexp_stack2 b a).
Proof.
  unfold logsumexp_stack2. simpl.
  generalize (data b) as y. induction (data a) as [|x xs IH]; intros [|y ys]; simpl;
    try reflexivity.
  rewrite IH, logsumexp_pair_comm. reflexivity.
Qed.

Lemma neg_involutive (a : ndarray) : neg (neg a) = a.
Proof.
  destruct a as [s d]. unfold neg, vneg. simpl. f_equal.
  rewrite map_map. rewrite <- (map_id d) at 2. apply map_ext. intros x. lra.
Qed.

Section DensityProperties.

Variable PRNGKey : Type.
Variable split : PRNGKey -> PRNGKey * PRNGKey.
Variable random_normal : PRNGKey -> list nat -> ndarray.

(** C7: the potential of the base density does not change when the rotation
    quaternions of a state are negated. *)
Theorem potential_double_cover_invariant (self : BaseDensity PRNGKey) (s : State.t) :
  BaseDensity_potential PRNGKey self
    (State.mk (neg (State.rot s)) (State.pos s) (State.ics s) (State.aux s) (State.box s))
  = BaseDensity_potential PRNGKey self s.
Proof.
  unfold BaseDensity_potential. cbn [State.rot State.pos State.aux].
  rewrite neg_involutive, logsumexp_stack2_data_comm. reflexivity.
Qed.

(** C9: the log-density returned by [sample] is the potential of the state
    returned with it. *)
Theorem sample_log_density_is_potential (self : BaseDensity PRNGKey) (key : PRNGKey) :
  let t := BaseDensity_sample PRNGKey split random_normal self key in
  mk_ndarray [] [BaseDensity_potential PRNGKey self (obj t)] = ldj t.
Proof.
  unfold BaseDensity_sample, next.
  destruct (split key) as [k1 c1]. destruct (split c1) as [k2 c2].
  destruct (split c2) as [k3 c3]. destruct (split c3) as [k4 c4].
  reflexivity.
Qed.

End DensityProperties.

(** ** The target density *)

Section TargetProperties.

Variable PRNGKey : Type.
Variable openmm : OpenMM.
Variable np_empty : Uninitialized.

(** C10: without a dataset the property [box] raises the data-not-loaded
    error; with a dataset it returns the box built from the first box entry
    (and [jnp.zeros(3)] as minimum corner); the density object is the same
    after the call. *)
Theorem box_property (aux_model : Distribution PRNGKey) (specs : SystemSpecification)
        (model : OpenMMEnergyModel) (cutoff : option R) :
  (let self := mk_TargetDensity PRNGKey aux_model specs model None cutoff in
   TargetDensity_box PRNGKey self = (self, inl (Exn ValueError "Data not loaded.")))
  /\ (forall (pos : list ndarray) (first : ndarray) (others : list ndarray)
             (force : option (list ndarray)),
        let self := mk_TargetDensity PRNGKey aux_model specs model
                      (Some (Data.mk pos (first :: others) force)) cutoff in
        TargetDensity_box PRNGKey self
        = (self, inr (mk_SimulationBox first (jnp_zeros [3%nat])))).
Proof.
  split; intros; reflexivity.
Qed.

(** With a dataset that holds no frame, [self.data.box[0]] raises. *)
Lemma box_property_empty_dataset (aux_model : Distribution PRNGKey)
      (specs : SystemSpecification) (model : OpenMMEnergyModel) (cutoff : option R)
      (pos : list ndarray) (force : option (list ndarray)) :
  let self := mk_TargetDensity PRNGKey aux_model specs model
                (Some (Data.mk pos [] force)) cutoff in
  TargetDensity_box PRNGKey self = (self, inl (Exn IndexError "index is out of bounds")).
Proof. reflexivity. Qed.

(** C2, on the code: [wrap_openmm_model] returns the pair
    [(eval, compute_energy_and_forces)], which [functools.partial] refuses
    as not callable; [potential] raises this [TypeError] on every input, in
    every state of the engine, and leaves the engine untouched. *)
Theorem potential_raises_on_every_input (self : TargetDensity PRNGKey)
        (inp : AugmentedData.t) (w : World) :
  TargetDensity_potential PRNGKey openmm np_empty self inp w
  = (w, inl (Exn TypeError "the first argument must be callable")).
Proof. reflexivity. Qed.

End TargetProperties.

(** ** The energy oracle *)

(** Settles the comparisons of concrete reals a run of the code meets. *)
Ltac decide_reals :=
  repeat match goal with
    | |- context [Rlt_dec ?a ?b] =>
        destruct (Rlt_dec a b); [try (exfalso; lra) | try (exfalso; lra)]
    | |- context [Req_dec_T ?a ?b] =>
        destruct (Req_dec_T a b); [try (exfalso; lra) | try (exfalso; lra)]
    | |- context [Rgt_dec ?a ?b] =>
        destruct (Rgt_dec a b); [try (exfalso; lra) | try (exfalso; lra)]
    end.

Lemma bind_ret_inv {A B : Type} (c : M A) (k : A -> M B) (w w' : World) (b : B) :
  bind c k w = (w', inr b) ->
  exists w1 a, c w = (w1, inr a) /\ k a w1 = (w', inr b).
Proof.
  unfold bind. destruct (c w) as [w1 [e|a]]; intros H; [discriminate|].
  exists w1, a. split; [reflexivity | exact H].
Qed.

Lemma bind_eq {A B : Type} (c : M A) (k : A -> M B) (w w1 : World) (a : A) :
  c w = (w1, inr a) -> bind c k w = k a w1.
Proof. unfold bind. intros ->. reflexivity. Qed.

Section OracleProperties.

Variable openmm : OpenMM.
Variable np_empty : Uninitialized.

(** The argument [error_handling] does not reach the handler: the call
    behaves as if it had not been given. *)
Lemma override_is_ignored (self : OpenMMEnergyModel) (pos : ndarray)
      (box : option ndarray) (policy : ErrorHandling) :
  compute_energies_and_forces openmm np_empty self pos box (Some policy)
  = compute_energies_and_forces openmm np_empty self pos box None.
Proof. reflexivity. Qed.

End OracleProperties.

(** *** Buffers *)

Lemma set_nth_length {A : Type} (i : nat) (v : A) (l : list A) :
  length (set_nth i v l) = length l.
Proof.
  revert i. induction l as [|a l IH]; intros [|i]; simpl; auto.
Qed.

Lemma firstn_set_nth {A : Type} (i : nat) (v : A) (l : list A) :
  (i < length l)%nat -> firstn (S i) (set_nth i v l) = firstn i l ++ [v].
Proof.
  revert i. induction l as [|a l IH]; intros [|i] H; simpl in *; try lia.
  - reflexivity.
  - f_equal. apply IH. lia.
Qed.

Lemma firstn_exact {A : Type} (i : nat) (l : list A) :
  length l = i -> firstn i l = l.
Proof. intros <-. apply firstn_all. Qed.

Lemma vmul_length (a b : vec) : length a = length b -> length (vmul a b) = length a.
Proof.
  intros H. unfold vmul. rewrite length_map, length_combine. lia.
Qed.

Lemma nth_vmul (a b : vec) (j : nat) (da db : R) :
  (j < length a)%nat -> (j < length b)%nat ->
  nth j (vmul a b) (da * db) = nth j a da * nth j b db.
Proof.
  revert b j. induction a as [|x a IH]; intros [|y b] [|j] Ha Hb; simpl in *; try lia.
  - reflexivity.
  - apply IH; lia.
Qed.

Lemma nth_concat_rows {A : Type} (k : nat) (rows : list (list A)) (i j : nat) (d : A) :
  Forall (fun r => length r = k) rows ->
  (i < length rows)%nat -> (j < k)%nat ->
  nth (i * k + j) (concat rows) d = nth j (nth i rows []) d.
Proof.
  intros Hall. revert i. induction Hall as [|r rows Hr Hall IH]; intros i Hi Hj;
    simpl in *; [lia|].
  destruct i as [|i]; simpl.
  - apply app_nth1. lia.
  - rewrite app_nth2 by lia. replace (k + i * k + j - length r)%nat with (i * k + j)%nat by lia.
    apply IH; lia.
Qed.

Section OracleRun.

Variable openmm : OpenMM.
Variable np_empty : Uninitialized.
Variable self : OpenMMEnergyModel.

Let atoms3 : nat := (n_atoms (model self) * 3)%nat.
Let mask : vec := data (vs_mask (model self)).

(** The engine reports one force entry per coordinate of the system the
    context was built for. *)
Hypothesis forces_shape :
  forall b p, length (particle_forces openmm b p) = atoms3.

(** A row of the force buffer written by the [finally] clause. *)
Let written (row : vec) : Prop :=
  exists force, length force = atoms3 /\ row = vmul force mask.

Lemma query_force_shape (p : vec) (w w' : World) (energy : R) (force : vec) :
  query openmm self p w = (w', inr (energy, force)) -> length force = atoms3.
Proof.
  unfold query. intros H.
  apply bind_ret_inv in H as (w1 & [] & _ & H).
  apply bind_ret_inv in H as (w2 & [] & _ & H).
  apply bind_ret_inv in H as (w3 & st & Hst & H).
  apply bind_ret_inv in H as (w4 & e & _ & H).
  unfold ret in H. inversion H; subst. unfold vdiv_scalar. rewrite length_map.
  unfold getState in Hst. destruct (getState_error _ _ _); inversion Hst; subst.
  apply forces_shape.
Qed.

Lemma iteration_writes (i : nat) (p : vec) (bufs bufs' : vec * list vec) (w w' : World) :
  iteration openmm np_empty self i p bufs w = (w', inr bufs') ->
  exists energy force, length force = atoms3 /\ bufs' = store self i energy force bufs.
Proof.
  unfold iteration. destruct (query openmm self p w) as [w1 [e|[energy force]]] eqn:Hq.
  - assert (Hg : length (map (force_scratch np_empty i) (seq 0 atoms3)) = atoms3)
      by (rewrite length_map, length_seq; reflexivity).
    destruct (error_handling self); intros H.
    + discriminate.
    + unfold bind, logging_warning, ret in H. inversion H; subst. eauto.
    + inversion H; subst. eauto.
  - intros H. inversion H; subst. apply query_force_shape in Hq. eauto.
Qed.

Lemma loop_writes (samples : list vec) :
  forall (i : nat) (bufs bufs' : vec * list vec) (w w' : World),
    loop openmm np_empty self i samples bufs w = (w', inr bufs') ->
    length (snd bufs) = (i + length samples)%nat ->
    exists rows, length rows = length samples
                 /\ snd bufs' = firstn i (snd bufs) ++ rows
                 /\ Forall written rows.
Proof.
  induction samples as [|p rest IH]; intros i bufs bufs' w w' H Hlen; simpl in *.
  - unfold ret in H. inversion H; subst. exists []. rewrite app_nil_r.
    repeat split; [|constructor]. symmetry. apply firstn_exact. lia.
  - apply bind_ret_inv in H as (w1 & b1 & Hit & H).
    apply iteration_writes in Hit as (energy & force & Hf & ->).
    apply IH in H as (rows & Hrows & Hb & Hall).
    + exists (vmul force mask :: rows). simpl. repeat split.
      * lia.
      * rewrite Hb. unfold store. cbn [snd]. rewrite firstn_set_nth by lia.
        rewrite <- app_assoc. reflexivity.
      * constructor; [exists force; split; [exact Hf | reflexivity] | exact Hall].
    + unfold store. cbn [snd]. rewrite set_nth_length. lia.
Qed.

(** On finite entries (the reals of [store]) the mask does its work: in what
    [compute_energies_and_forces] returns, the force entry of sample [i] at
    coordinate [j] is zero wherever the virtual-site mask is zero at [j],
    whether or not the query of that sample failed.  Entries that are not
    finite are the matter of [non_finite_force_survives_the_mask] below. *)
Theorem masked_forces_are_zero (pos : ndarray) (box : option ndarray)
        (policy : option ErrorHandling) (w w' : World) (energies forces : ndarray)
        (i j : nat) :
  well_shaped (vs_mask (model self)) ->
  compute_energies_and_forces openmm np_empty self pos box policy w
    = (w', inr (energies, forces)) ->
  (i < hd 0%nat (shape forces))%nat ->
  (j < n_atoms (model self) * 3)%nat ->
  nth j (data (vs_mask (model self))) 1 = 0 ->
  nth (i * (n_atoms (model self) * 3) + j) (data forces) 1 = 0.
Proof.
  intros Hmask H Hi Hj Hzero. unfold compute_energies_and_forces in H.
  apply bind_ret_inv in H as (w1 & samples & _ & H).
  apply bind_ret_inv in H as (w2 & [] & _ & H).
  apply bind_ret_inv in H as (w3 & [] & Hassert & H).
  apply bind_ret_inv in H as (w4 & bufs & Hloop & H).
  unfold ret in H. inversion H; subst. clear H. cbn [shape data hd] in *.
  assert (Hm : length mask = atoms3).
  { unfold assert in Hassert.
    destruct (shape_eq_dec _ _) as [E|]; [|discriminate].
    unfold mask, atoms3. rewrite Hmask, E. simpl. lia. }
  apply loop_writes in Hloop as (rows & Hrows & Hb & Hall).
  2:{ cbn [snd]. rewrite length_map, length_seq. reflexivity. }
  cbn [firstn app] in Hb. rewrite Hb.
  assert (Hi' : (i < length rows)%nat) by (rewrite Hrows; exact Hi).
  assert (Hlens : Forall (fun r => length r = atoms3) rows).
  { eapply Forall_impl; [|exact Hall]. intros r (f & Hf & ->).
    rewrite vmul_length; lia. }
  fold atoms3 in Hj |- *. rewrite (nth_concat_rows atoms3); [| exact Hlens | exact Hi' | exact Hj].
  rewrite Forall_forall in Hall.
  match goal with
  | |- nth j ?row _ = _ =>
      assert (Hin : In row rows) by (apply nth_In; exact Hi');
      destruct (Hall _ Hin) as (f & Hf & Hrow); rewrite Hrow
  end.
  replace 1 with (1 * 1) at 1 by lra.
  rewrite nth_vmul by lia. fold mask in Hzero. rewrite Hzero. lra.
Qed.

End OracleRun.

(** *** The mask and entries that are not finite *)

(** On finite entries the masking step of [IEEE] is the one of [store]. *)
Lemma stored_force_finite (kbT : R) (raw mask : vec) :
  IEEE.stored_force kbT (map IEEE.Finite raw) (map IEEE.Finite mask)
  = map IEEE.Finite (vmul (vdiv_scalar raw kbT) mask).
Proof.
  unfold IEEE.stored_force, IEEE.masked, vmul, vdiv_scalar.
  revert mask. induction raw as [|x raw IH]; intros [|m mask]; simpl; try reflexivity.
  f_equal. apply IH.
Qed.

(** A zero of the mask gives zero exactly for the finite entries. *)
Lemma mul_zero_is_zero_iff_finite (a : IEEE.float) :
  IEEE.mul a (IEEE.Finite 0) = IEEE.Finite 0 <-> exists x, a = IEEE.Finite x.
Proof.
  split.
  - destruct a as [x|s|]; simpl.
    + intros _. now exists x.
    + destruct (Req_dec_T 0 0); discriminate.
    + discriminate.
  - intros [x ->]. simpl. f_equal. ring.
Qed.

(** C6, on the code: with a mask that is 0 on the virtual site, an engine
    that reports NaN or an infinity there, or scratch memory that holds
    them for a failed sample, leaves NaN in the returned forces at the
    masked entries: the product with the mask does not set them to zero.
    A finite raw entry (here 9) is set to zero. *)
Theorem non_finite_force_survives_the_mask :
  IEEE.stored_force 2
    [IEEE.Finite 5; IEEE.Finite 5; IEEE.Finite 5; IEEE.NaN; IEEE.Infinity false; IEEE.Finite 9]
    (map IEEE.Finite [1; 1; 1; 0; 0; 0])
  = [IEEE.Finite 2.5; IEEE.Finite 2.5; IEEE.Finite 2.5; IEEE.NaN; IEEE.NaN; IEEE.Finite 0]
  /\ IEEE.stored_scratch
       [IEEE.Finite 7; IEEE.Finite 7; IEEE.Finite 7; IEEE.NaN; IEEE.Infinity true; IEEE.Finite 7]
       (map IEEE.Finite [1; 1; 1; 0; 0; 0])
     = [IEEE.Finite 7; IEEE.Finite 7; IEEE.Finite 7; IEEE.NaN; IEEE.NaN; IEEE.Finite 0].
Proof.
  unfold IEEE.stored_force, IEEE.stored_scratch, IEEE.masked. simpl.
  destruct (Req_dec_T 0 0) as [_|N]; [|now contradiction N].
  split; repeat (f_equal; try lra).
Qed.

(** C1, on the code: an oracle configured with [LogWarning], called with the
    override [RaiseException] on a batch whose second sample the engine
    rejects, does not raise: it logs one warning and returns both entries,
    the second one holding what the scratch buffers held. *)
Theorem override_raise_logs_and_continues :
  compute_energies_and_forces picky_openmm sevens
    (mk_OpenMMEnergyModel 1 one_atom_model LogWarning)
    (mk_ndarray [2; 1; 3]%nat [1; 0; 0; -1; 0; 0]) None (Some RaiseException) fresh_world
  = (mk_World (mk_Context unit_box [-1; 0; 0]) ["engine failure"%string],
     inr (mk_ndarray [2%nat] [1; 7], mk_ndarray [2; 1; 3]%nat [5; 5; 5; 7; 7; 7])).
Proof.
  unfold compute_energies_and_forces, bind, lift, reshape_samples. simpl.
  unfold iteration, query, bind, setPositions, computeVirtualSites, getState, float_div,
    logging_warning, ret, raise.
  simpl.
  decide_reals. simpl.
  replace (1 / 1) with 1 by lra. replace (5 / 1 * 1) with 5 by lra.
  replace (7 * 1) with 7 by lra. reflexivity.
Qed.

(** *** Runs in which the engine accepts every sample *)

Lemma chunks_length (k n : nat) (d : vec) : length (chunks k n d) = n.
Proof. unfold chunks. rewrite length_map, length_seq. reflexivity. Qed.

Lemma infer_axis_exact (n k : nat) (c : exn_class) :
  k <> 0%nat -> infer_axis (n * k) k c = inr n.
Proof.
  intros Hk. unfold infer_axis.
  destruct (Nat.eqb_spec k 0); [contradiction|].
  rewrite Nat.Div0.mod_mul, Nat.eqb_refl, Nat.div_mul by exact Hk. reflexivity.
Qed.

Section OracleAccepted.

Variable openmm : OpenMM.
Variable np_empty : Uninitialized.
Variable self : OpenMMEnergyModel.

Hypothesis kbT_nonzero : kbT self <> 0.

Lemma after_query_box (w : World) (p : vec) :
  periodicBoxVectors (context (after_query openmm w p)) = periodicBoxVectors (context w).
Proof. reflexivity. Qed.

Lemma query_accepted (p : vec) (w : World) :
  accepted openmm (periodicBoxVectors (context w)) p ->
  query openmm self p w
  = (after_query openmm w p,
     inr (reported_energy openmm self (periodicBoxVectors (context w)) p,
          vdiv_scalar (particle_forces openmm (periodicBoxVectors (context w))
                                       (virtual_sites openmm p)) (kbT self))).
Proof.
  intros [Hset Hget].
  unfold query, bind, setPositions, computeVirtualSites, getState, float_div.
  rewrite Hset. cbn [context periodicBoxVectors positions warnings].
  rewrite Hget. cbn [fst snd].
  destruct (Req_dec_T (kbT self) 0); [contradiction|]. reflexivity.
Qed.

Lemma iteration_accepted (i : nat) (p : vec) (bufs : vec * list vec) (w : World) :
  accepted openmm (periodicBoxVectors (context w)) p ->
  iteration openmm np_empty self i p bufs w
  = (after_query openmm w p,
     inr (set_nth i (reported_energy openmm self (periodicBoxVectors (context w)) p) (fst bufs),
          set_nth i (reported_force openmm self (periodicBoxVectors (context w)) p) (snd bufs))).
Proof.
  intros H. unfold iteration. rewrite (query_accepted p w H). reflexivity.
Qed.

Lemma loop_accepted (samples : list vec) :
  forall (i : nat) (bufs : vec * list vec) (w : World),
    Forall (accepted openmm (periodicBoxVectors (context w))) samples ->
    length (fst bufs) = (i + length samples)%nat ->
    length (snd bufs) = (i + length samples)%nat ->
    loop openmm np_empty self i samples bufs w
    = (fold_left (after_query openmm) samples w,
       inr (firstn i (fst bufs)
              ++ map (reported_energy openmm self (periodicBoxVectors (context w))) samples,
            firstn i (snd bufs)
              ++ map (reported_force openmm self (periodicBoxVectors (context w))) samples)).
Proof.
  induction samples as [|p rest IH]; intros i [en fs] w Hall He Hf; simpl in *.
  - rewrite !app_nil_r, !firstn_exact by lia. reflexivity.
  - inversion Hall as [|? ? Hp Hrest]; subst.
    rewrite (bind_eq _ _ _ _ _ (iteration_accepted i p (en, fs) w Hp)).
    cbn [fst snd]. rewrite IH.
    + cbn [fst snd]. rewrite !firstn_set_nth by lia. rewrite <- !app_assoc. reflexivity.
    + exact Hrest.
    + cbn [fst]. rewrite set_nth_length. lia.
    + cbn [snd]. rewrite set_nth_length. lia.
Qed.

Lemma compute_energies_and_forces_accepted (pos : ndarray) (box : option ndarray)
      (policy : option ErrorHandling) (w : World) (n : nat) :
  let k := (n_atoms (model self) * 3)%nat in
  let samples := chunks k n (data pos) in
  let b := periodicBoxVectors (context (with_box box w)) in
  (0 < n_atoms (model self))%nat ->
  length (data pos) = (n * k)%nat ->
  box_accepted openmm box ->
  shape (vs_mask (model self)) = [n_atoms (model self); 3%nat] ->
  Forall (accepted openmm b) samples ->
  compute_energies_and_forces openmm np_empty self pos box policy w
  = (fold_left (after_query openmm) samples (with_box box w),
     inr (mk_ndarray [n] (map (reported_energy openmm self b) samples),
          mk_ndarray [n; n_atoms (model self); 3%nat]
                     (concat (map (reported_force openmm self b) samples)))).
Proof.
  intros k samples b Hpos Hlen Hbox Hmask Hall.
  unfold compute_energies_and_forces, reshape_samples.
  rewrite Hlen. fold k. rewrite infer_axis_exact by (unfold k; lia).
  cbn [lift]. unfold bind at 1. cbn [ret]. fold samples.
  assert (Hb : (match box with
                | Some b0 => assert (shape_eq_dec (shape b0) [3; 3]%nat)
                                    ("box.shape = " ++ str_tuple (shape b0))%string ;;
                             setPeriodicBoxVectors openmm (rows b0)
                | None => ret tt
                end) w = (with_box box w, inr tt)).
  { destruct box as [b0|]; [|reflexivity]. destruct Hbox as [Hs He].
    unfold bind, assert. destruct (shape_eq_dec _ _); [|contradiction].
    cbn [ret]. unfold setPeriodicBoxVectors. rewrite He. reflexivity. }
  rewrite (bind_eq _ _ _ _ _ Hb).
  unfold bind at 1, assert. destruct (shape_eq_dec _ _); [|contradiction]. cbn [ret].
  unfold samples at 1 2 3. rewrite chunks_length. fold samples.
  erewrite bind_eq.
  2:{ apply loop_accepted.
      - exact Hall.
      - cbn [fst]. rewrite length_map, length_seq. unfold samples.
        rewrite chunks_length. reflexivity.
      - cbn [snd]. rewrite length_map, length_seq. unfold samples.
        rewrite chunks_length. reflexivity. }
  unfold ret. cbn [fst snd firstn app].
  replace (length samples) with n by (unfold samples; now rewrite chunks_length).
  reflexivity.
Qed.

End OracleAccepted.

(** ** The bridge *)

Section BridgeAccepted.

Variable openmm : OpenMM.
Variable np_empty : Uninitialized.
Variable model : OpenMMEnergyModel.

Let molecules : nat := n_molecules (water_model model).
Let sites : nat := n_sites (water_model model).
Let k : nat := (n_atoms (water_model model) * 3)%nat.

Hypothesis kbT_nonzero : kbT model <> 0.
Hypothesis atoms_sites : n_atoms (water_model model) = (molecules * sites)%nat.
Hypothesis atoms_positive : (0 < n_atoms (water_model model))%nat.
Hypothesis mask_shape :
  shape (vs_mask (water_model model)) = [n_atoms (water_model model); 3%nat].

(** The box given to the bridge has three entries and the engine takes its
    diagonal matrix. *)
Let box_ok (box : option ndarray) : Prop :=
  match box with
  | Some b => shape b = [3%nat]
              /\ setPeriodicBoxVectors_error openmm (rows (jnp_diag b)) = None
  | None => True
  end.

Lemma box_ok_accepted (box : option ndarray) :
  box_ok box -> box_accepted openmm (option_map jnp_diag box).
Proof.
  destruct box as [b|]; [|trivial]. intros [Hs He]. split; [|exact He].
  unfold jnp_diag. rewrite Hs. reflexivity.
Qed.

Lemma bridge_box (box : option ndarray) (w : World) :
  box_ok box ->
  (match box with
   | Some b => assert (shape_eq_dec (shape b) [3%nat]) "" ;; ret (Some (jnp_diag b))
   | None => ret None
   end) w = (w, inr (option_map jnp_diag box)).
Proof.
  destruct box as [b|]; [|reflexivity]. intros [Hs _].
  unfold bind, assert. destruct (shape_eq_dec _ _); [reflexivity | contradiction].
Qed.

(** A batch of [n] configurations, all accepted. *)
Lemma compute_energy_and_forces_batch (pos : ndarray) (box : option ndarray)
      (w : World) (n : nat) :
  let samples := chunks k n (data pos) in
  let box' := option_map jnp_diag box in
  let b := periodicBoxVectors (context (with_box box' w)) in
  shape pos = [n; molecules; sites; 3%nat] ->
  length (data pos) = (n * k)%nat ->
  (0 < n)%nat ->
  box_ok box ->
  Forall (accepted openmm b) samples ->
  compute_energy_and_forces openmm np_empty model pos box true w
  = (fold_left (after_query openmm) samples (with_box box' w),
     inr (mk_ndarray [n] (map (reported_energy openmm model b) samples),
          mk_ndarray (shape pos) (concat (map (reported_force openmm model b) samples)))).
Proof.
  intros samples box' b Hshape Hlen Hn Hbox Hall.
  unfold compute_energy_and_forces.
  rewrite (bind_eq _ _ _ _ _ (bridge_box box w Hbox)).
  cbn [negb]. unfold bind at 1, assert. rewrite Hshape. cbn [tl hd].
  destruct (shape_eq_dec _ _) as [_|N]; [|now contradiction N]. cbn [ret].
  change ((ret tt ;; ret pos) w) with (w, inr (A:=exn) pos). cbv beta iota.
  rewrite Hshape. cbn [hd]. unfold bind at 1. rewrite Hlen.
  replace (n * k)%nat with ((molecules * sites) * (n * 3))%nat
    by (unfold k; rewrite atoms_sites; lia).
  rewrite infer_axis_exact by lia. cbn [lift ret].
  unfold pure_callback.
  erewrite bind_eq.
  2:{ erewrite bind_eq.
      2:{ apply (compute_energies_and_forces_accepted openmm np_empty model kbT_nonzero
                   _ box' None w n); cbn [data].
          - exact atoms_positive.
          - exact Hlen.
          - apply box_ok_accepted, Hbox.
          - exact mask_shape.
          - exact Hall. }
      cbn [fst snd shape].
      destruct (shape_eq_dec [n] [n]) as [_|N]; [|now contradiction N].
      pose proof atoms_sites as Ha. unfold water_model in Ha.
      destruct (shape_eq_dec _ _) as [_|N]; [|exfalso; apply N; rewrite Ha; reflexivity].
      reflexivity. }
  reflexivity.
Qed.

Lemma chunks_one (d : vec) : length d = k -> chunks k 1 d = [d].
Proof.
  intros H. unfold chunks. cbn [seq map]. rewrite Nat.mul_0_l. cbn [skipn].
  rewrite firstn_exact by exact H. reflexivity.
Qed.

(** One configuration, accepted. *)
Lemma compute_energy_and_forces_single (c : ndarray) (box : option ndarray) (w : World) :
  let box' := option_map jnp_diag box in
  let b := periodicBoxVectors (context (with_box box' w)) in
  shape c = [molecules; sites; 3%nat] ->
  length (data c) = k ->
  box_ok box ->
  accepted openmm b (data c) ->
  compute_energy_and_forces openmm np_empty model c box false w
  = (after_query openmm (with_box box' w) (data c),
     inr (mk_ndarray [] [reported_energy openmm model b (data c)],
          mk_ndarray (shape c) (reported_force openmm model b (data c)))).
Proof.
  intros box' b Hshape Hlen Hbox Hacc.
  unfold compute_energy_and_forces.
  rewrite (bind_eq _ _ _ _ _ (bridge_box box w Hbox)).
  cbn [negb]. unfold bind at 1, assert. rewrite Hshape.
  destruct (shape_eq_dec _ _) as [_|N]; [|now contradiction N]. cbn [ret].
  change ((ret tt ;; ret (expand_dims0 c)) w) with (w, inr (A:=exn) (expand_dims0 c)).
  cbv beta iota. unfold expand_dims0. cbn [shape data hd]. rewrite Hshape.
  unfold bind at 1. rewrite Hlen.
  replace k with ((molecules * sites) * (1 * 3))%nat at 1
    by (unfold k; rewrite atoms_sites; lia).
  rewrite infer_axis_exact by lia. cbn [lift ret].
  unfold pure_callback.
  erewrite bind_eq.
  2:{ erewrite bind_eq.
      2:{ apply (compute_energies_and_forces_accepted openmm np_empty model kbT_nonzero
                   _ box' None w 1); cbn [data].
          - exact atoms_positive.
          - rewrite Hlen. unfold k, water_model. lia.
          - apply box_ok_accepted, Hbox.
          - exact mask_shape.
          - fold k. rewrite chunks_one by exact Hlen. constructor; [exact Hacc | constructor]. }
      cbn [fst snd shape].
      destruct (shape_eq_dec [1%nat] [1%nat]) as [_|N]; [|now contradiction N].
      pose proof atoms_sites as Ha. unfold water_model in Ha.
      destruct (shape_eq_dec _ _) as [_|N]; [|exfalso; apply N; rewrite Ha; reflexivity].
      reflexivity. }
  cbn [fst snd data negb]. fold k. rewrite chunks_one by exact Hlen.
  cbn [map concat fold_left lift squeeze0 shape data]. rewrite app_nil_r.
  reflexivity.
Qed.

Lemma chunks_lengths (n : nat) (d : vec) :
  length d = (n * k)%nat -> Forall (fun p => length p = k) (chunks k n d).
Proof.
  intros H. unfold chunks. apply Forall_forall. intros p Hp.
  apply in_map_iff in Hp as (i & <- & Hi). apply in_seq in Hi.
  rewrite length_firstn, length_skipn, H. nia.
Qed.

Lemma concat_singletons {A B : Type} (f : A -> B) (l : list A) :
  concat (map (fun a => [f a]) l) = map f l.
Proof. induction l as [|a l IH]; simpl; [reflexivity | now rewrite IH]. Qed.

(** What the bridge returns for one accepted configuration [p]. *)
Let single_result (b : list vec) (p : vec) : ndarray * ndarray :=
  (mk_ndarray [] [reported_energy openmm model b p],
   mk_ndarray [molecules; sites; 3%nat] (reported_force openmm model b p)).

Lemma one_by_one_accepted (box : option ndarray) (samples : list vec) :
  forall w : World,
    let box' := option_map jnp_diag box in
    let b := periodicBoxVectors (context w) in
    with_box box' w = w ->
    box_ok box ->
    Forall (accepted openmm b) samples ->
    Forall (fun p => length p = k) samples ->
    one_by_one openmm np_empty model
               (map (mk_ndarray [molecules; sites; 3%nat]) samples) box w
    = (fold_left (after_query openmm) samples w, inr (map (single_result b) samples)).
Proof.
  induction samples as [|p rest IH]; intros w box' b Hw Hbox Hacc Hlen; [reflexivity|].
  inversion Hacc as [|? ? Hp Hrest]; subst. inversion Hlen as [|? ? Lp Lrest]; subst.
  cbn [map one_by_one fold_left].
  erewrite bind_eq.
  2:{ apply compute_energy_and_forces_single; cbn [shape data]; try assumption.
      - reflexivity.
      - fold box'. rewrite Hw. exact Hp. }
  fold box'. rewrite Hw. cbn [shape].
  assert (Hw1 : with_box box' (after_query openmm w p) = after_query openmm w p).
  { unfold box' in *. destruct box as [b0|]; [|reflexivity].
    cbn [option_map with_box] in *. unfold after_query. cbn [context positions warnings].
    rewrite <- Hw at 2. reflexivity. }
  erewrite bind_eq.
  2:{ apply IH; assumption. }
  rewrite after_query_box. reflexivity.
Qed.

(** C8: for a batch of [n > 0] configurations that the engine all accepts,
    one batched call through the bridge returns the stacked results of the
    calls without batch dimension on each configuration in turn, in the
    input order, and leaves the engine in the same state. *)
Theorem batch_equals_one_by_one (pos : ndarray) (box : option ndarray)
        (w : World) (n : nat) :
  shape pos = [n; molecules; sites; 3%nat] ->
  well_shaped pos ->
  (0 < n)%nat ->
  box_ok box ->
  Forall (accepted openmm
            (periodicBoxVectors (context (with_box (option_map jnp_diag box) w))))
         (chunks k n (data pos)) ->
  exists (w' : World) (results : list (ndarray * ndarray)),
    one_by_one openmm np_empty model (configurations pos) box w = (w', inr results)
    /\ length results = n
    /\ compute_energy_and_forces openmm np_empty model pos box true w
       = (w', inr (jnp_stack (map fst results), jnp_stack (map snd results))).
Proof.
  intros Hshape Hwf Hn Hbox Hacc.
  set (box' := option_map jnp_diag box) in *.
  set (b := periodicBoxVectors (context (with_box box' w))) in *.
  assert (Hlen : length (data pos) = (n * k)%nat).
  { unfold well_shaped in Hwf. rewrite Hwf, Hshape. unfold k. rewrite atoms_sites.
    simpl. lia. }
  assert (Hk : size_of [molecules; sites; 3%nat] = k).
  { unfold k. rewrite atoms_sites. simpl. lia. }
  pose proof (chunks_lengths n (data pos) Hlen) as Hlens.
  exists (fold_left (after_query openmm) (chunks k n (data pos)) (with_box box' w)),
         (map (single_result b) (chunks k n (data pos))).
  split; [|split].
  - unfold configurations. rewrite Hshape. cbn [tl hd]. rewrite Hk.
    destruct (chunks k n (data pos)) as [|p rest] eqn:E.
    { apply (f_equal (@length vec)) in E. rewrite chunks_length in E. simpl in E. lia. }
    inversion Hacc as [|? ? Hp Hrest]; subst. inversion Hlens as [|? ? Lp Lrest]; subst.
    cbn [map one_by_one fold_left].
    erewrite bind_eq.
    2:{ apply compute_energy_and_forces_single; cbn [shape data]; try assumption.
        reflexivity. }
    fold box'. fold b. cbn [shape].
    assert (Hw1 : with_box box' (after_query openmm (with_box box' w) p)
                  = after_query openmm (with_box box' w) p).
    { unfold box'. destruct box as [b0|]; reflexivity. }
    erewrite bind_eq.
    2:{ apply one_by_one_accepted; try assumption. }
    rewrite after_query_box. reflexivity.
  - rewrite length_map. apply chunks_length.
  - rewrite (compute_energy_and_forces_batch pos box w n Hshape Hlen Hn Hbox Hacc).
    fold box'. fold b. unfold jnp_stack. rewrite !length_map, chunks_length.
    rewrite !map_map. unfold single_result. cbn [fst snd data shape].
    rewrite (concat_singletons (reported_energy openmm model b)).
    destruct (chunks k n (data pos)) as [|p rest] eqn:E.
    { apply (f_equal (@length vec)) in E. rewrite chunks_length in E. simpl in E. lia. }
    cbn [map hd shape]. rewrite Hshape. reflexivity.
Qed.

End BridgeAccepted.

Section BridgeBackward.

Variable openmm : OpenMM.
Variable np_empty : Uninitialized.
Variable model : OpenMMEnergyModel.

Let molecules : nat := n_molecules (water_model model).
Let sites : nat := n_sites (water_model model).

Hypothesis atoms_sites : n_atoms (water_model model) = (molecules * sites)%nat.

(** The shapes of what the oracle returns. *)
Lemma compute_energies_and_forces_shapes (pos : ndarray) (box : option ndarray)
      (policy : option ErrorHandling) (w w' : World) (energies forces : ndarray) :
  compute_energies_and_forces openmm np_empty model pos box policy w
    = (w', inr (energies, forces)) ->
  exists n,
    infer_axis (length (data pos)) (n_atoms (water_model model) * 3) ValueError = inr n
    /\ shape energies = [n]
    /\ shape forces = [n; n_atoms (water_model model); 3%nat].
Proof.
  unfold compute_energies_and_forces, reshape_samples, water_model. intros H.
  apply bind_ret_inv in H as (w1 & samples & Hs & H).
  apply bind_ret_inv in H as (w2 & [] & _ & H).
  apply bind_ret_inv in H as (w3 & [] & _ & H).
  apply bind_ret_inv in H as (w4 & bufs & _ & H).
  unfold ret in H. inversion H; subst. clear H.
  destruct (infer_axis _ _ _) as [e|n]; [discriminate|].
  unfold lift, ret in Hs. inversion Hs; subst.
  exists n. rewrite chunks_length. repeat split.
Qed.

(** C5: for a configuration [pos] and an upstream gradient scalar [g], the
    vector-Jacobian product of the bridge's [eval] (forward rule, then
    backward rule) is [-g] times the force array the oracle reports for
    that configuration, in the shape of [pos]. *)
Theorem backward_rule_is_negated_force (pos : ndarray) (box : option ndarray) (g : R)
        (w w' : World) (energies forces_flat : ndarray) :
  shape pos = [molecules; sites; 3%nat] ->
  well_shaped pos ->
  match box with Some b => shape b = [3%nat] | None => True end ->
  compute_energies_and_forces openmm np_empty model
    (mk_ndarray [1%nat; (molecules * sites)%nat; 3%nat] (data pos))
    (option_map jnp_diag box) None w
    = (w', inr (energies, forces_flat)) ->
  eval_vjp openmm np_empty model pos box false g w
  = (w', inr (mk_ndarray [] (data energies),
              mk_ndarray (shape pos) (vscale (- g) (data forces_flat)))).
Proof.
  intros Hshape Hwf Hbox Hrun.
  assert (Hlen : length (data pos) = ((molecules * sites) * (1 * 3))%nat).
  { unfold well_shaped in Hwf. rewrite Hwf, Hshape. simpl. lia. }
  destruct (compute_energies_and_forces_shapes _ _ _ _ _ _ _ Hrun) as (n & Hn & He & Hf).
  cbn [data] in Hn. rewrite atoms_sites in Hn.
  assert (n = 1%nat) as ->.
  { unfold infer_axis in Hn. destruct (Nat.eqb_spec (molecules * sites * 3) 0); [discriminate|].
    destruct (_ =? 0)%nat; [|discriminate]. inversion Hn. rewrite Hlen.
    replace (molecules * sites * (1 * 3))%nat with (molecules * sites * 3)%nat by lia.
    apply Nat.div_same. assumption. }
  assert (Hb : (match box with
                | Some b => assert (shape_eq_dec (shape b) [3%nat]) "" ;; ret (Some (jnp_diag b))
                | None => ret None
                end) w = (w, inr (option_map jnp_diag box))).
  { destruct box as [b|]; [|reflexivity]. unfold bind, assert.
    destruct (shape_eq_dec _ _); [reflexivity | contradiction]. }
  assert (Hc : compute_energy_and_forces openmm np_empty model pos box false w
               = (w', inr (mk_ndarray [] (data energies),
                           mk_ndarray (shape pos) (data forces_flat)))).
  { unfold compute_energy_and_forces.
    rewrite (bind_eq _ _ _ _ _ Hb). cbn [negb].
    unfold bind at 1, assert. rewrite Hshape.
    destruct (shape_eq_dec _ _) as [_|N]; [|now contradiction N]. cbn [ret].
    change ((ret tt ;; ret (expand_dims0 pos)) w) with (w, inr (A:=exn) (expand_dims0 pos)).
    cbv beta iota. unfold expand_dims0. cbn [shape data hd]. rewrite Hshape.
    unfold bind at 1. rewrite Hlen, infer_axis_exact by lia. cbn [lift ret].
    unfold pure_callback.
    erewrite bind_eq.
    2:{ erewrite bind_eq by exact Hrun. cbn [fst snd shape].
        rewrite He, Hf, atoms_sites.
        destruct (shape_eq_dec [1%nat] [1%nat]) as [_|N]; [|now contradiction N].
        destruct (shape_eq_dec _ _) as [_|N]; [|now contradiction N].
        reflexivity. }
    cbn [fst snd]. unfold squeeze0, bind, lift. rewrite He. cbn [ret shape data].
    reflexivity. }
  unfold eval_vjp, eval_fwd.
  erewrite bind_eq.
  2:{ erewrite bind_eq by exact Hc. reflexivity. }
  reflexivity.
Qed.

End BridgeBackward.

(** ** Runs on the concrete instances *)

(** Unfolds a run of the oracle on concrete data down to the comparisons of
    reals, settles them, and compares the resulting arrays entry by entry. *)
Ltac run_oracle :=
  unfold compute_energies_and_forces, bind, lift, reshape_samples; simpl;
  unfold iteration, query, bind, setPositions, computeVirtualSites, getState, float_div,
    logging_warning, ret, raise; simpl;
  decide_reals; simpl;
  repeat (try lra; f_equal).

Lemma half_rejected_run :
  compute_energies_and_forces two_site_openmm sevens two_site_oracle
    half_rejected_batch None None fresh_world
  = (mk_World (mk_Context unit_box [-1; 0; 0; 0; 0; 0]) ["engine failure"%string],
     inr (mk_ndarray [2%nat] [0.5; 7],
          mk_ndarray [2; 2; 3]%nat [2.5; 2.5; 2.5; 0; 0; 0; 7; 7; 7; 0; 0; 0])).
Proof. run_oracle. Qed.

Lemma masked_forces_are_zero_witness :
  nth (1 * (n_atoms (model two_site_oracle) * 3) + 4)
      [2.5; 2.5; 2.5; 0; 0; 0; 7; 7; 7; 0; 0; 0] 1 = 0.
Proof.
  apply (masked_forces_are_zero two_site_openmm sevens two_site_oracle
           (fun _ _ => eq_refl) half_rejected_batch None None fresh_world _ _ _ 1%nat 4%nat
           eq_refl half_rejected_run).
  - simpl. lia.
  - simpl. lia.
  - reflexivity.
Defined.

Lemma one_configuration_run :
  compute_energies_and_forces two_site_openmm sevens two_site_oracle
    (mk_ndarray [1; 1 * 2; 3]%nat (data one_configuration)) (option_map jnp_diag None) None
    fresh_world
  = (mk_World (mk_Context unit_box [1; 0; 0; 0; 0; 0]) [],
     inr (mk_ndarray [1%nat] [0.5], mk_ndarray [1; 2; 3]%nat [2.5; 2.5; 2.5; 0; 0; 0])).
Proof. run_oracle. Qed.

Lemma backward_rule_is_negated_force_witness :
  eval_vjp two_site_openmm sevens two_site_oracle one_configuration None false 3 fresh_world
  = (mk_World (mk_Context unit_box [1; 0; 0; 0; 0; 0]) [],
     inr (mk_ndarray [] [0.5],
          mk_ndarray [1; 2; 3]%nat (vscale (- 3) [2.5; 2.5; 2.5; 0; 0; 0]))).
Proof.
  apply (backward_rule_is_negated_force two_site_openmm sevens two_site_oracle eq_refl
           one_configuration None 3 fresh_world _ (mk_ndarray [1%nat] [0.5])
           (mk_ndarray [1; 2; 3]%nat [2.5; 2.5; 2.5; 0; 0; 0])
           eq_refl eq_refl I one_configuration_run).
Defined.

Lemma batch_equals_one_by_one_witness :
  exists (w' : World) (results : list (ndarray * ndarray)),
    one_by_one two_site_openmm sevens two_site_oracle
               (configurations accepted_batch) (Some cubic_box) fresh_world
    = (w', inr results)
    /\ length results = 2%nat
    /\ compute_energy_and_forces two_site_openmm sevens two_site_oracle
         accepted_batch (Some cubic_box) true fresh_world
       = (w', inr (jnp_stack (map fst results), jnp_stack (map snd results))).
Proof.
  apply (batch_equals_one_by_one two_site_openmm sevens two_site_oracle).
  - simpl. lra.
  - reflexivity.
  - simpl. lia.
  - reflexivity.
  - reflexivity.
  - reflexivity.
  - lia.
  - split; reflexivity.
  - simpl. repeat constructor; simpl; decide_reals; reflexivity.
Defined.

(** * Further properties of the code *)

(** ** The oracle under each error policy *)

Section OraclePolicies.

Variable openmm : OpenMM.
Variable np_empty : Uninitialized.
Variable self : OpenMMEnergyModel.

Lemma after_attempt_box (w : World) (p : vec) :
  periodicBoxVectors (context (after_attempt openmm w p)) = periodicBoxVectors (context w).
Proof. unfold after_attempt. destruct (setPositions_error openmm p); reflexivity. Qed.

Lemma after_iteration_box (b : list vec) (w : World) (p : vec) :
  periodicBoxVectors (context (after_iteration openmm self b w p))
  = periodicBoxVectors (context w).
Proof.
  unfold after_iteration.
  destruct (failure openmm self b p), (error_handling self); cbn [context];
    apply after_attempt_box.
Qed.

Lemma query_outcome (p : vec) (w : World) :
  query openmm self p w
  = (after_attempt openmm w p,
     match failure openmm self (periodicBoxVectors (context w)) p with
     | Some e => inl e
     | None =>
         inr (reported_energy openmm self (periodicBoxVectors (context w)) p,
              vdiv_scalar (particle_forces openmm (periodicBoxVectors (context w))
                                           (virtual_sites openmm p)) (kbT self))
     end).
Proof.
  unfold query, failure, after_attempt, bind, setPositions, computeVirtualSites, getState,
    float_div.
  destruct (setPositions_error openmm p) as [m|]; [reflexivity|].
  cbn [context periodicBoxVectors positions warnings].
  destruct (getState_error openmm _ _) as [m|]; [reflexivity|]. cbn [fst snd].
  destruct (Req_dec_T (kbT self) 0); reflexivity.
Qed.

Lemma iteration_nonraising (i : nat) (p : vec) (bufs : vec * list vec) (w : World) :
  error_handling self <> RaiseException ->
  let b := periodicBoxVectors (context w) in
  iteration openmm np_empty self i p bufs w
  = (after_iteration openmm self b w p,
     inr (set_nth i (written_energy openmm np_empty self b (i, p)) (fst bufs),
          set_nth i (written_force openmm np_empty self b (i, p)) (snd bufs))).
Proof.
  intros Hpol b. unfold iteration, after_iteration, written_energy, written_force, store.
  rewrite query_outcome. fold b. cbn [fst snd].
  destruct (failure openmm self b p) as [e|]; [|reflexivity].
  destruct (error_handling self); [contradiction | reflexivity | reflexivity].
Qed.

Lemma indexed_cons (i : nat) (p : vec) (rest : list vec) :
  indexed i (p :: rest) = (i, p) :: indexed (S i) rest.
Proof. reflexivity. Qed.

Lemma loop_nonraising (samples : list vec) :
  error_handling self <> RaiseException ->
  forall (i : nat) (bufs : vec * list vec) (w : World),
    let b := periodicBoxVectors (context w) in
    length (fst bufs) = (i + length samples)%nat ->
    length (snd bufs) = (i + length samples)%nat ->
    loop openmm np_empty self i samples bufs w
    = (fold_left (after_iteration openmm self b) samples w,
       inr (firstn i (fst bufs)
              ++ map (written_energy openmm np_empty self b) (indexed i samples),
            firstn i (snd bufs)
              ++ map (written_force openmm np_empty self b) (indexed i samples))).
Proof.
  intros Hpol. induction samples as [|p rest IH]; intros i [en fs] w b He Hf;
    cbn [fst snd length] in *.
  - cbn [loop indexed fold_left map combine seq length]. unfold ret.
    rewrite !app_nil_r, !firstn_exact by lia. reflexivity.
  - cbn [loop fold_left]. rewrite indexed_cons. cbn [map].
    rewrite (bind_eq _ _ _ _ _ (iteration_nonraising i p (en, fs) w Hpol)).
    fold b. cbn [fst snd]. rewrite IH.
    + cbn [fst snd]. rewrite after_iteration_box. fold b.
      rewrite !firstn_set_nth by lia. rewrite <- !app_assoc. reflexivity.
    + cbn [fst]. rewrite set_nth_length. lia.
    + cbn [snd]. rewrite set_nth_length. lia.
Qed.

(** With valid shapes and a box the engine takes, the call comes down to the
    loop over the samples, started on the fresh buffers in the state where
    the box is installed. *)
Lemma compute_energies_and_forces_prologue (pos : ndarray) (box : option ndarray)
      (policy : option ErrorHandling) (w : World) (n : nat) :
  let k := (n_atoms (model self) * 3)%nat in
  let samples := chunks k n (data pos) in
  (0 < n_atoms (model self))%nat ->
  length (data pos) = (n * k)%nat ->
  box_accepted openmm box ->
  shape (vs_mask (model self)) = [n_atoms (model self); 3%nat] ->
  compute_energies_and_forces openmm np_empty self pos box policy w
  = (bufs <- loop openmm np_empty self 0 samples
               (map (energies_buffer np_empty) (seq 0 n),
                map (fun i => map (forces_buffer np_empty i) (seq 0 k)) (seq 0 n)) ;;
     ret (mk_ndarray [n] (fst bufs),
          mk_ndarray [n; n_atoms (model self); 3%nat] (concat (snd bufs))))
      (with_box box w).
Proof.
  intros k samples Hpos Hlen Hbox Hmask.
  unfold compute_energies_and_forces, reshape_samples.
  rewrite Hlen. fold k. rewrite infer_axis_exact by (unfold k; lia).
  cbn [lift]. unfold bind at 1. cbn [ret]. fold samples.
  assert (Hb : (match box with
                | Some b0 => assert (shape_eq_dec (shape b0) [3; 3]%nat)
                                    ("box.shape = " ++ str_tuple (shape b0))%string ;;
                             setPeriodicBoxVectors openmm (rows b0)
                | None => ret tt
                end) w = (with_box box w, inr tt)).
  { destruct box as [b0|]; [|reflexivity]. destruct Hbox as [Hs He].
    unfold bind, assert. destruct (shape_eq_dec _ _); [|contradiction].
    cbn [ret]. unfold setPeriodicBoxVectors. rewrite He. reflexivity. }
  rewrite (bind_eq _ _ _ _ _ Hb).
  unfold bind at 1, assert. destruct (shape_eq_dec _ _); [|contradiction]. cbn [ret].
  unfold samples. rewrite !chunks_length. reflexivity.
Qed.

Lemma with_box_warnings (box : option ndarray) (w : World) :
  warnings (with_box box w) = warnings w.
Proof. destruct box; reflexivity. Qed.

(** X1: under a policy that does not re-raise ([LogWarning] or [Nothing]),
    with valid shapes and an accepted box, the call returns all [n] entries:
    for a sample the engine takes, the energy and masked force it reports for
    that sample, whatever happened to the other samples; for a sample that
    fails, what the scratch buffers of that iteration held. *)
Theorem nonraising_policy_returns_every_entry (pos : ndarray) (box : option ndarray)
        (policy : option ErrorHandling) (w : World) (n : nat) :
  let k := (n_atoms (model self) * 3)%nat in
  let samples := chunks k n (data pos) in
  let b := periodicBoxVectors (context (with_box box w)) in
  error_handling self <> RaiseException ->
  (0 < n_atoms (model self))%nat ->
  length (data pos) = (n * k)%nat ->
  box_accepted openmm box ->
  shape (vs_mask (model self)) = [n_atoms (model self); 3%nat] ->
  compute_energies_and_forces openmm np_empty self pos box policy w
  = (fold_left (after_iteration openmm self b) samples (with_box box w),
     inr (mk_ndarray [n] (map (written_energy openmm np_empty self b) (indexed 0 samples)),
          mk_ndarray [n; n_atoms (model self); 3%nat]
            (concat (map (written_force openmm np_empty self b) (indexed 0 samples))))).
Proof.
  intros k samples b Hpol Hpos Hlen Hbox Hmask.
  rewrite (compute_energies_and_forces_prologue pos box policy w n Hpos Hlen Hbox Hmask).
  fold k. fold samples.
  erewrite bind_eq.
  2:{ apply (loop_nonraising samples Hpol).
      - cbn [fst]. rewrite length_map, length_seq. unfold samples.
        rewrite chunks_length. reflexivity.
      - cbn [snd]. rewrite length_map, length_seq. unfold samples.
        rewrite chunks_length. reflexivity. }
  reflexivity.
Qed.

Lemma warnings_after_iterations (b : list vec) (samples : list vec) :
  forall w : World,
    warnings (fold_left (after_iteration openmm self b) samples w)
    = warnings w ++ match error_handling self with
                    | LogWarning => logged openmm self b samples
                    | _ => []
                    end.
Proof.
  induction samples as [|p rest IH]; intros w; cbn [fold_left logged flat_map].
  - destruct (error_handling self); now rewrite app_nil_r.
  - rewrite IH. unfold after_iteration, after_attempt, after_query.
    fold (logged openmm self b rest).
    destruct (failure openmm self b p) as [e|], (error_handling self),
      (setPositions_error openmm p); cbn [warnings app];
      rewrite <- ?app_assoc; reflexivity.
Qed.

(** X2: under [LogWarning] the call logs exactly the messages of the failing
    samples, one warning each and in batch order; under [Nothing] it logs
    nothing. *)
Theorem warnings_are_the_failures (pos : ndarray) (box : option ndarray)
        (policy : option ErrorHandling) (w : World) (n : nat) :
  let k := (n_atoms (model self) * 3)%nat in
  let samples := chunks k n (data pos) in
  let b := periodicBoxVectors (context (with_box box w)) in
  error_handling self <> RaiseException ->
  (0 < n_atoms (model self))%nat ->
  length (data pos) = (n * k)%nat ->
  box_accepted openmm box ->
  shape (vs_mask (model self)) = [n_atoms (model self); 3%nat] ->
  warnings (fst (compute_energies_and_forces openmm np_empty self pos box policy w))
  = warnings w ++ match error_handling self with
                  | LogWarning => logged openmm self b samples
                  | _ => []
                  end.
Proof.
  intros k samples b Hpol Hpos Hlen Hbox Hmask.
  rewrite (compute_energies_and_forces_prologue pos box policy w n Hpos Hlen Hbox Hmask).
  fold k. fold samples.
  erewrite bind_eq.
  2:{ apply (loop_nonraising samples Hpol).
      - cbn [fst]. rewrite length_map, length_seq. unfold samples.
        rewrite chunks_length. reflexivity.
      - cbn [snd]. rewrite length_map, length_seq. unfold samples.
        rewrite chunks_length. reflexivity. }
  unfold ret. cbn [fst]. fold b. rewrite warnings_after_iterations, with_box_warnings.
  reflexivity.
Qed.

(** Under [RaiseException], the loop stops at the first sample that fails. *)
Lemma loop_raises_at_first_failure (pre : list vec) (p : vec) (post : list vec) (e : exn) :
  error_handling self = RaiseException ->
  forall (i : nat) (bufs : vec * list vec) (w : World),
    let b := periodicBoxVectors (context w) in
    Forall (fun q => failure openmm self b q = None) pre ->
    failure openmm self b p = Some e ->
    loop openmm np_empty self i (pre ++ p :: post) bufs w
    = (after_attempt openmm (fold_left (after_attempt openmm) pre w) p, inl e).
Proof.
  intros Hpol. induction pre as [|q pre IH]; intros i bufs w b Hpre Hp.
  - cbn [app loop fold_left]. unfold bind, iteration. rewrite query_outcome. fold b.
    rewrite Hp, Hpol. reflexivity.
  - inversion Hpre as [|? ? Hq Hrest]; subst.
    cbn [app loop fold_left]. unfold bind at 1. unfold iteration at 1.
    rewrite query_outcome. fold b. rewrite Hq.
    apply IH; rewrite after_attempt_box; assumption.
Qed.

(** X3: under [RaiseException], when the samples before [p] are taken and
    [p] fails, the call raises the exception of [p]; nothing is logged, no
    result is returned, and the samples after [p] never reach the engine
    (the context is the one the attempt on [p] left). *)
Theorem raise_policy_aborts_at_first_failure (pos : ndarray) (box : option ndarray)
        (policy : option ErrorHandling) (w : World) (n : nat)
        (pre : list vec) (p : vec) (post : list vec) (e : exn) :
  let k := (n_atoms (model self) * 3)%nat in
  let b := periodicBoxVectors (context (with_box box w)) in
  error_handling self = RaiseException ->
  (0 < n_atoms (model self))%nat ->
  length (data pos) = (n * k)%nat ->
  box_accepted openmm box ->
  shape (vs_mask (model self)) = [n_atoms (model self); 3%nat] ->
  chunks k n (data pos) = pre ++ p :: post ->
  Forall (fun q => failure openmm self b q = None) pre ->
  failure openmm self b p = Some e ->
  compute_energies_and_forces openmm np_empty self pos box policy w
  = (after_attempt openmm (fold_left (after_attempt openmm) pre (with_box box w)) p, inl e).
Proof.
  intros k b Hpol Hpos Hlen Hbox Hmask Hsplit Hpre Hp.
  rewrite (compute_energies_and_forces_prologue pos box policy w n Hpos Hlen Hbox Hmask).
  fold k. rewrite Hsplit. unfold bind.
  rewrite (loop_raises_at_first_failure pre p post e Hpol); [reflexivity | exact Hpre | exact Hp].
Qed.

(** Once the batch is cut into its samples, the call is: the box, the
    assertion on the mask, the loop. *)
Lemma compute_energies_and_forces_after_reshape (pos : ndarray) (box : option ndarray)
      (policy : option ErrorHandling) (w : World) (samples : list vec) :
  reshape_samples (n_atoms (model self)) pos = inr samples ->
  compute_energies_and_forces openmm np_empty self pos box policy w
  = (match box with
     | Some b => assert (shape_eq_dec (shape b) [3; 3]%nat)
                        ("box.shape = " ++ str_tuple (shape b))%string ;;
                 setPeriodicBoxVectors openmm (rows b)
     | None => ret tt
     end ;;
     assert (shape_eq_dec (shape (vs_mask (model self))) [n_atoms (model self); 3]%nat) "" ;;
     bufs <- loop openmm np_empty self 0 samples
               (map (energies_buffer np_empty) (seq 0 (length samples)),
                map (fun i => map (forces_buffer np_empty i)
                                  (seq 0 (n_atoms (model self) * 3)))
                    (seq 0 (length samples))) ;;
     ret (mk_ndarray [length samples] (fst bufs),
          mk_ndarray [length samples; n_atoms (model self); 3]%nat (concat (snd bufs)))) w.
Proof.
  intros H. unfold compute_energies_and_forces. rewrite H. reflexivity.
Qed.

Lemma reshape_samples_exact (pos : ndarray) (n : nat) :
  (0 < n_atoms (model self))%nat ->
  length (data pos) = (n * (n_atoms (model self) * 3))%nat ->
  reshape_samples (n_atoms (model self)) pos
  = inr (chunks (n_atoms (model self) * 3) n (data pos)).
Proof.
  intros Hpos Hlen. unfold reshape_samples. rewrite Hlen.
  rewrite infer_axis_exact by lia. reflexivity.
Qed.

Lemma box_installed (box : option ndarray) (w : World) :
  box_accepted openmm box ->
  (match box with
   | Some b => assert (shape_eq_dec (shape b) [3; 3]%nat)
                      ("box.shape = " ++ str_tuple (shape b))%string ;;
               setPeriodicBoxVectors openmm (rows b)
   | None => ret tt
   end) w = (with_box box w, inr tt).
Proof.
  destruct box as [b0|]; [|reflexivity]. intros [Hs He].
  unfold bind, assert. destruct (shape_eq_dec _ _); [|contradiction].
  cbn [ret]. unfold setPeriodicBoxVectors. rewrite He. reflexivity.
Qed.


Lemma bind_raise {A B : Type} (c : M A) (k : A -> M B) (w w1 : World) (e : exn) :
  c w = (w1, inl e) -> bind c k w = (w1, inl e).
Proof. unfold bind. intros ->. reflexivity. Qed.

(** X4: a batch whose size is not a multiple of [n_atoms * 3] (or a model
    without atoms) is refused with [ValueError] before the engine is
    touched. *)
Theorem bad_batch_size_raises_ValueError (pos : ndarray) (box : option ndarray)
        (policy : option ErrorHandling) (w : World) :
  let k := (n_atoms (model self) * 3)%nat in
  k = 0%nat \/ (length (data pos) mod k)%nat <> 0%nat ->
  compute_energies_and_forces openmm np_empty self pos box policy w
  = (w, inl (Exn ValueError "cannot reshape array")).
Proof.
  intros k H. unfold compute_energies_and_forces, reshape_samples, infer_axis. fold k.
  destruct (Nat.eqb_spec k 0) as [|Hk]; [reflexivity|].
  destruct H as [H|H]; [contradiction|].
  destruct (Nat.eqb_spec (length (data pos) mod k) 0); [contradiction | reflexivity].
Qed.

(** X5: a box that is not a 3x3 matrix fails the assertion on its shape,
    with the message [box.shape = ] followed by the shape, and with the
    engine untouched. *)
Theorem box_of_other_shape_fails_untouched (pos : ndarray) (b : ndarray)
        (policy : option ErrorHandling) (w : World) (n : nat) :
  let k := (n_atoms (model self) * 3)%nat in
  (0 < n_atoms (model self))%nat ->
  length (data pos) = (n * k)%nat ->
  shape b <> [3; 3]%nat ->
  compute_energies_and_forces openmm np_empty self pos (Some b) policy w
  = (w, inl (Exn AssertionError ("box.shape = " ++ str_tuple (shape b)))).
Proof.
  intros k Hpos Hlen Hb.
  pose proof (reshape_samples_exact pos n Hpos Hlen) as Hre.
  rewrite (compute_energies_and_forces_after_reshape _ _ _ _ _ Hre).
  apply bind_raise. unfold bind, assert.
  destruct (shape_eq_dec (shape b) [3; 3]%nat); [contradiction | reflexivity].
Qed.

(** X6: a virtual-site mask whose shape is not [(n_atoms, 3)] fails its
    assertion only after the box passed to the call has been installed in
    the engine: the call raises and the engine keeps the new box. *)
Theorem mask_of_other_shape_fails_after_box (pos : ndarray) (box : option ndarray)
        (policy : option ErrorHandling) (w : World) (n : nat) :
  let k := (n_atoms (model self) * 3)%nat in
  (0 < n_atoms (model self))%nat ->
  length (data pos) = (n * k)%nat ->
  box_accepted openmm box ->
  shape (vs_mask (model self)) <> [n_atoms (model self); 3%nat] ->
  compute_energies_and_forces openmm np_empty self pos box policy w
  = (with_box box w, inl (Exn AssertionError "")).
Proof.
  intros k Hpos Hlen Hbox Hmask.
  pose proof (reshape_samples_exact pos n Hpos Hlen) as Hre.
  rewrite (compute_energies_and_forces_after_reshape _ _ _ _ _ Hre).
  rewrite (bind_eq _ _ _ _ _ (box_installed box w Hbox)).
  apply bind_raise. unfold assert.
  destruct (shape_eq_dec _ _); [contradiction | reflexivity].
Qed.

Lemma loop_keeps_box (samples : list vec) :
  forall (i : nat) (bufs : vec * list vec) (w : World),
    periodicBoxVectors (context (fst (loop openmm np_empty self i samples bufs w)))
    = periodicBoxVectors (context w).
Proof.
  induction samples as [|p rest IH]; intros i bufs w; [reflexivity|].
  cbn [loop]. unfold bind at 1. unfold iteration at 1. rewrite query_outcome.
  destruct (failure openmm self _ p) as [e|].
  - destruct (error_handling self).
    + cbn [fst]. apply after_attempt_box.
    + unfold bind at 1, logging_warning, ret. rewrite IH. cbn [context].
      apply after_attempt_box.
    + rewrite IH. apply after_attempt_box.
  - rewrite IH. apply after_attempt_box.
Qed.

(** X7: whatever the policy and whether the call returns or raises, the
    samples never change the periodic box of the engine: after a call with
    valid shapes it is the box that was passed, or the one the engine had
    when none was passed. *)
Theorem call_leaves_the_given_box (pos : ndarray) (box : option ndarray)
        (policy : option ErrorHandling) (w : World) (n : nat) :
  let k := (n_atoms (model self) * 3)%nat in
  (0 < n_atoms (model self))%nat ->
  length (data pos) = (n * k)%nat ->
  box_accepted openmm box ->
  shape (vs_mask (model self)) = [n_atoms (model self); 3%nat] ->
  periodicBoxVectors
    (context (fst (compute_energies_and_forces openmm np_empty self pos box policy w)))
  = match box with
    | Some b => rows b
    | None => periodicBoxVectors (context w)
    end.
Proof.
  intros k Hpos Hlen Hbox Hmask.
  rewrite (compute_energies_and_forces_prologue pos box policy w n Hpos Hlen Hbox Hmask).
  fold k. unfold bind.
  pose proof (loop_keeps_box (chunks k n (data pos)) 0
                (map (energies_buffer np_empty) (seq 0 n),
                 map (fun i => map (forces_buffer np_empty i) (seq 0 k)) (seq 0 n))
                (with_box box w)) as H.
  destruct (loop _ _ _ _ _ _ _) as [w1 [e|bufs]]; cbn [fst ret] in *;
    rewrite H; destruct box; reflexivity.
Qed.


End OraclePolicies.

(** ** Shapes of what the oracle and the bridge return *)

Lemma concat_uniform_length {A : Type} (k : nat) (rows : list (list A)) :
  Forall (fun r => length r = k) rows -> length (concat rows) = (length rows * k)%nat.
Proof.
  induction 1 as [|r rows Hr _ IH]; [reflexivity|].
  cbn [concat length]. rewrite length_app, IH, Hr. lia.
Qed.

Lemma infer_axis_inr (size other n : nat) (c : exn_class) :
  infer_axis size other c = inr n -> other <> 0%nat /\ size = (n * other)%nat.
Proof.
  unfold infer_axis. destruct (Nat.eqb_spec other 0); [discriminate|].
  destruct (Nat.eqb_spec (size mod other) 0) as [Hm|]; [|discriminate].
  intros H. inversion H; subst. split; [assumption|].
  pose proof (Nat.div_mod_eq size other). lia.
Qed.

Section OracleShapes.

Variable openmm : OpenMM.
Variable np_empty : Uninitialized.
Variable self : OpenMMEnergyModel.

Let atoms3 : nat := (n_atoms (model self) * 3)%nat.
Let mask : vec := data (vs_mask (model self)).

Hypothesis forces_shape :
  forall b p, length (particle_forces openmm b p) = atoms3.
Hypothesis mask_well_shaped : well_shaped (vs_mask (model self)).

Lemma loop_keeps_energy_length (samples : list vec) :
  forall (i : nat) (bufs bufs' : vec * list vec) (w w' : World),
    loop openmm np_empty self i samples bufs w = (w', inr bufs') ->
    length (fst bufs') = length (fst bufs).
Proof.
  induction samples as [|p rest IH]; intros i bufs bufs' w w' H; cbn [loop] in H.
  - unfold ret in H. now inversion H.
  - apply bind_ret_inv in H as (w1 & b1 & Hit & H).
    apply (iteration_writes openmm np_empty self forces_shape) in Hit
      as (energy & force & _ & ->).
    apply IH in H. rewrite H. unfold store. cbn [fst]. apply set_nth_length.
Qed.

(** What a returning call returned: one energy per sample, and one force row
    per sample, each the product of [n_atoms * 3] entries with the mask. *)
Lemma returned_rows (pos : ndarray) (box : option ndarray)
      (policy : option ErrorHandling) (w w' : World) (energies forces : ndarray) :
  compute_energies_and_forces openmm np_empty self pos box policy w
    = (w', inr (energies, forces)) ->
  exists (n : nat) (rows : list vec),
    length (data pos) = (n * atoms3)%nat /\ atoms3 <> 0%nat
    /\ shape energies = [n] /\ length (data energies) = n
    /\ shape forces = [n; n_atoms (model self); 3%nat]
    /\ data forces = concat rows /\ length rows = n
    /\ Forall (fun row => exists force, length force = atoms3 /\ row = vmul force mask) rows
    /\ length mask = atoms3.
Proof.
  unfold compute_energies_and_forces, reshape_samples. intros H.
  apply bind_ret_inv in H as (w1 & samples & Hs & H).
  apply bind_ret_inv in H as (w2 & [] & _ & H).
  apply bind_ret_inv in H as (w3 & [] & Hassert & H).
  apply bind_ret_inv in H as (w4 & bufs & Hloop & H).
  unfold ret in H. inversion H; subst. clear H.
  destruct (infer_axis _ _ _) as [e|n] eqn:Hn; [discriminate|].
  unfold lift, ret in Hs. inversion Hs; subst. clear Hs.
  apply infer_axis_inr in Hn as [Hk Hlen].
  pose proof (loop_keeps_energy_length _ _ _ _ _ _ Hloop) as He.
  apply (loop_writes openmm np_empty self forces_shape) in Hloop as (rows & Hrows & Hb & Hall).
  2:{ cbn [snd]. rewrite length_map, length_seq. reflexivity. }
  cbn [fst snd firstn app] in *. rewrite chunks_length in *.
  rewrite length_map, length_seq in He.
  assert (Hm : length mask = atoms3).
  { unfold assert in Hassert. destruct (shape_eq_dec _ _) as [E|]; [|discriminate].
    pose proof mask_well_shaped as Hw. unfold well_shaped in Hw. rewrite E in Hw.
    unfold mask, atoms3. etransitivity; [exact Hw | simpl; lia]. }
  subst rows. exists n, (snd bufs). cbn [shape data]. repeat split; assumption.
Qed.

(** X9: whenever the call returns, the energies are an array of shape [(n)]
    and the forces an array of shape [(n, n_atoms, 3)] that hold exactly as
    many entries as their shapes say, [n] being the size of the batch divided
    by [n_atoms * 3]. *)
Theorem returned_arrays_are_well_shaped (pos : ndarray) (box : option ndarray)
        (policy : option ErrorHandling) (w w' : World) (energies forces : ndarray) :
  compute_energies_and_forces openmm np_empty self pos box policy w
    = (w', inr (energies, forces)) ->
  let n := (length (data pos) / (n_atoms (model self) * 3))%nat in
  shape energies = [n] /\ well_shaped energies
  /\ shape forces = [n; n_atoms (model self); 3%nat] /\ well_shaped forces.
Proof.
  intros H. apply returned_rows in H
    as (n & rows & Hlen & Hk & Hse & Hde & Hsf & Hdf & Hrows & Hall & Hm).
  assert (Hn : (length (data pos) / (n_atoms (model self) * 3))%nat = n).
  { rewrite Hlen. apply Nat.div_mul. exact Hk. }
  cbv zeta. rewrite Hn. unfold well_shaped. rewrite Hse, Hsf, Hde, Hdf.
  assert (Hc : length (concat rows) = (n * atoms3)%nat).
  { rewrite (concat_uniform_length atoms3).
    - f_equal. exact Hrows.
    - eapply Forall_impl; [|exact Hall]. intros r (f & Hf & ->).
      rewrite vmul_length; [exact Hf | now rewrite Hm]. }
  repeat split; [simpl; lia|].
  etransitivity; [exact Hc|]. unfold atoms3. simpl. lia.
Qed.

End OracleShapes.

Section BridgeCalls.

Variable openmm : OpenMM.
Variable np_empty : Uninitialized.
Variable model : OpenMMEnergyModel.

Let molecules : nat := n_molecules (water_model model).
Let sites : nat := n_sites (water_model model).

(** X10: a [pos] whose shape (without the batch axis, when there is one) is
    not [(n_molecules, n_sites, 3)] fails an assertion of the bridge before
    the engine is touched, whatever the box. *)
Theorem bridge_refuses_other_shapes (pos : ndarray) (box : option ndarray)
        (has_batch_dim : bool) (w : World) :
  (if has_batch_dim then tl (shape pos) else shape pos) <> [molecules; sites; 3%nat] ->
  compute_energy_and_forces openmm np_empty model pos box has_batch_dim w
  = (w, inl (Exn AssertionError "")).
Proof.
  intros H. unfold compute_energy_and_forces.
  assert (Hb : forall k : option ndarray -> M (ndarray * ndarray),
             (forall b', k b' w = (w, inl (Exn AssertionError ""))) ->
             bind (match box with
                   | Some b => assert (shape_eq_dec (shape b) [3%nat]) "" ;;
                               ret (Some (jnp_diag b))
                   | None => ret None
                   end) k w = (w, inl (Exn AssertionError ""))).
  { intros k Hk. destruct box as [b|]; [|apply Hk].
    unfold bind at 1 2, assert. destruct (shape_eq_dec (shape b) [3%nat]); [apply Hk | reflexivity]. }
  apply Hb. intros b'. apply bind_raise.
  destruct has_batch_dim; cbn [negb]; unfold bind, assert;
    destruct (shape_eq_dec _ _); (contradiction || reflexivity).
Qed.

(** What a returning call of the bridge went through. *)
Lemma bridge_returns (pos : ndarray) (box : option ndarray) (has_batch_dim : bool)
      (w w' : World) (energies forces : ndarray) :
  compute_energy_and_forces openmm np_empty model pos box has_batch_dim w
    = (w', inr (energies, forces)) ->
  let batch := if has_batch_dim then hd 0%nat (shape pos) else 1%nat in
  exists (atoms : nat) (out : ndarray * ndarray),
    compute_energies_and_forces openmm np_empty model
      (mk_ndarray [batch; atoms; 3%nat] (data pos)) (option_map jnp_diag box) None w
      = (w', inr out)
    /\ (if has_batch_dim then tl (shape pos) else shape pos) = [molecules; sites; 3%nat]
    /\ shape (fst out) = [batch]
    /\ shape (snd out) = [batch; atoms; 3%nat]
    /\ infer_axis (length (data pos)) (batch * 3) TypeError = inr atoms
    /\ data energies = data (fst out)
    /\ data forces = data (snd out)
    /\ shape forces = shape pos
    /\ shape energies = (if has_batch_dim then [batch] else []).
Proof.
  unfold compute_energy_and_forces. intros H.
  apply bind_ret_inv in H as (w1 & box' & Hbox & H).
  assert (w1 = w /\ box' = option_map jnp_diag box) as [-> ->].
  { destruct box as [b|]; cbn [option_map].
    - unfold bind, assert in Hbox. destruct (shape_eq_dec _ _); [|discriminate].
      unfold ret in Hbox. inversion Hbox. split; reflexivity.
    - unfold ret in Hbox. inversion Hbox. split; reflexivity. }
  clear Hbox.
  apply bind_ret_inv in H as (w2 & pos4 & Hpos & H).
  assert (w2 = w /\ pos4 = (if has_batch_dim then pos else expand_dims0 pos)
          /\ tl (shape pos4) = [molecules; sites; 3%nat]) as (-> & -> & Htl).
  { destruct has_batch_dim; cbn [negb] in Hpos; unfold bind, assert in Hpos;
      destruct (shape_eq_dec _ _) as [E|]; try discriminate;
      unfold ret in Hpos; inversion Hpos; subst; repeat split; assumption. }
  clear Hpos.
  apply bind_ret_inv in H as (w3 & atoms & Hatoms & H).
  assert (w3 = w /\ infer_axis (length (data (if has_batch_dim then pos else expand_dims0 pos)))
                       (hd 0%nat (shape (if has_batch_dim then pos else expand_dims0 pos)) * 3)
                       TypeError = inr atoms) as [-> Hinfer].
  { destruct (infer_axis _ _ _); unfold lift, ret, raise in Hatoms; inversion Hatoms; subst.
    split; reflexivity. }
  clear Hatoms.
  apply bind_ret_inv in H as (w4 & out & Hcall & H).
  unfold pure_callback in Hcall.
  apply bind_ret_inv in Hcall as (w5 & out' & Hrun & Hcheck).
  cbn [fst snd shape] in Hcheck.
  destruct (shape_eq_dec (shape (fst out')) _) as [He|]; [|discriminate].
  destruct (shape_eq_dec (shape (snd out')) _) as [Hf|]; [|discriminate].
  unfold ret in Hcheck. inversion Hcheck; subst. clear Hcheck.
  exists atoms, out.
  destruct has_batch_dim; cbn [negb] in H.
  - unfold ret in H. inversion H; subst. cbn [shape data].
    repeat split; try assumption; reflexivity.
  - unfold expand_dims0 in *. cbn [shape data hd] in *.
    unfold bind, lift, squeeze0 in H. rewrite He in H. cbn [ret shape] in H.
    unfold ret in H. inversion H; subst. cbn [shape data].
    repeat split; try assumption; reflexivity.
Qed.

(** X11: whenever the bridge returns, the forces have the shape of [pos],
    and the energies are a scalar without batch dimension and one entry per
    configuration with it. *)
Theorem bridge_returns_the_shape_of_pos (pos : ndarray) (box : option ndarray)
        (has_batch_dim : bool) (w w' : World) (energies forces : ndarray) :
  compute_energy_and_forces openmm np_empty model pos box has_batch_dim w
    = (w', inr (energies, forces)) ->
  shape forces = shape pos
  /\ shape energies = (if has_batch_dim then [hd 0%nat (shape pos)] else []).
Proof.
  intros H. apply bridge_returns in H. cbv zeta in H.
  destruct H as (atoms & out & _ & _ & _ & _ & _ & _ & _ & Hf & He).
  destruct has_batch_dim; split; assumption.
Qed.

End BridgeCalls.

Section BridgeGradient.

Variable openmm : OpenMM.
Variable np_empty : Uninitialized.
Variable oracle : OpenMMEnergyModel.

Hypothesis forces_shape :
  forall b p, length (particle_forces openmm b p) = (n_atoms (water_model oracle) * 3)%nat.
Hypothesis mask_well_shaped : well_shaped (vs_mask (water_model oracle)).

(** X12: on finite entries (the reals of [store]: finite forces from the
    engine, finite contents of the scratch buffers), the gradient the bridge
    hands to automatic differentiation for one configuration (forward rule,
    then backward rule with any cotangent [g]) is zero at every coordinate
    where the virtual-site mask is zero.  An entry that is not finite stays
    NaN through the mask ([non_finite_force_survives_the_mask]) and through
    the product with [-g]. *)
Theorem gradient_vanishes_on_virtual_sites (pos : ndarray) (box : option ndarray) (g : R)
        (w w' : World) (energy grad : ndarray) (j : nat) :
  eval_vjp openmm np_empty oracle pos box false g w = (w', inr (energy, grad)) ->
  (j < n_atoms (water_model oracle) * 3)%nat ->
  nth j (data (vs_mask (water_model oracle))) 1 = 0 ->
  nth j (data grad) 1 = 0.
Proof.
  intros H Hj Hzero. unfold eval_vjp, eval_fwd in H.
  apply bind_ret_inv in H as (w1 & out & Hfwd & H).
  apply bind_ret_inv in Hfwd as (w2 & out' & Hcall & Hret).
  unfold ret in Hret, H. inversion Hret; subst. inversion H; subst. clear Hret H.
  cbn [fst snd] in *. unfold eval_bwd. cbn [data].
  destruct out' as [energies forces].
  apply bridge_returns in Hcall. cbv zeta in Hcall.
  destruct Hcall as (atoms & [oe ofs] & Hrun & _ & Hs & _ & _ & _ & Hdata & _ & _).
  cbn [fst snd] in *. rewrite Hdata.
  apply (returned_rows openmm np_empty oracle forces_shape mask_well_shaped) in Hrun
    as (n & rows & _ & _ & Hse & _ & _ & Hdf & Hrows & Hall & Hm).
  rewrite Hs in Hse. inversion Hse; subst n.
  destruct rows as [|row [|? ?]]; try discriminate.
  inversion Hall as [|? ? (f & Hf & Hrow) _]; subst.
  rewrite Hdf. cbn [concat]. rewrite app_nil_r. unfold vscale.
  unfold water_model in Hj, Hzero, Hf, Hm |- *.
  set (mask := data (vs_mask (model oracle))) in *.
  assert (Hlen : length (vmul f mask) = (n_atoms (model oracle) * 3)%nat).
  { rewrite vmul_length; [exact Hf | rewrite Hf; symmetry; exact Hm]. }
  rewrite (nth_indep _ 1 (- g * (0 * 1))) by (rewrite length_map, Hlen; exact Hj).
  rewrite (map_nth (fun x => - g * x)).
  rewrite nth_vmul; [| rewrite Hf; exact Hj | rewrite Hm; exact Hj].
  rewrite Hzero. ring.
Qed.

End BridgeGradient.

(** ** More on the cutoff potential *)


Section CutoffBounds.

Variable value_and_grad_potential : vec -> R * vec.
Variable reference : vec.
Variable threshold : R.



End CutoffBounds.

Lemma vsum_vsquare_zero (v : vec) : vsum (vsquare v) = 0 -> Forall (fun a => a = 0) v.
Proof.
  induction v as [|a v IH]; intros H; [constructor|].
  change (a * a + vsum (vsquare v) = 0) in H.
  pose proof (vsum_vsquare_nonneg v) as Hv.
  pose proof (Rle_0_sqr a) as Hs. unfold Rsqr in Hs.
  assert (Ha : a * a = 0) by lra.
  constructor; [destruct (Rmult_integral _ _ Ha); assumption|]. apply IH. lra.
Qed.

(** X15: the quadratic surrogate is never negative, and for a point of the
    reference's length it is zero exactly at the reference. *)
Theorem surrogate_is_positive_definite (reference inp : vec) :
  length inp = length reference ->
  0 <= Cutoff.approximate_potential reference inp
  /\ (Cutoff.approximate_potential reference inp = 0 <-> inp = reference).
Proof.
  intros Hlen. unfold Cutoff.approximate_potential. split.
  - pose proof (vsum_vsquare_nonneg (vsub inp reference)). lra.
  - split.
    + intros H.
      assert (Hz : Forall (fun a => a = 0) (vsub inp reference))
        by (apply vsum_vsquare_zero; lra).
      clear H. revert reference Hlen Hz.
      induction inp as [|x xs IH]; intros [|r rs] Hlen Hz; simpl in *; try lia.
      * reflexivity.
      * inversion Hz; subst. f_equal; [lra|]. apply IH; [lia | assumption].
    + intros ->. clear Hlen.
      assert (Hz : vsum (vsquare (vsub reference reference)) = 0).
      { induction reference as [|r rs IH]; [reflexivity|].
        change (vsum (vsquare (vsub (r :: rs) (r :: rs))))
          with ((r - r) * (r - r) + vsum (vsquare (vsub rs rs))).
        rewrite IH. ring. }
      rewrite Hz. ring.
Qed.

(** X16: the gradient the code uses for the quadratic surrogate is its
    gradient: along every coordinate [i], the derivative of the surrogate at
    the point is entry [i] of [inp - reference]. *)
Theorem surrogate_gradient_is_its_derivative (reference inp : vec) (i : nat) :
  (i < length inp)%nat -> (i < length reference)%nat ->
  derivable_pt_lim (fun t => Cutoff.approximate_potential reference (set_nth i t inp))
                   (nth i inp 0)
                   (nth i (Cutoff.grad_approximate_potential reference inp) 0).
Proof. apply grad_approximate_potential_correct. Qed.

Lemma surrogate_gradient_is_its_derivative_witness :
  derivable_pt_lim (fun t => Cutoff.approximate_potential [1; 2] (set_nth 1 t [3; 5]))
                   (nth 1 [3; 5] 0)
                   (nth 1 (Cutoff.grad_approximate_potential [1; 2] [3; 5]) 0).
Proof.
  apply (surrogate_gradient_is_its_derivative [1; 2] [3; 5] 1); simpl; lia.
Defined.

(** ** The densities *)

Lemma logsumexp_pair (a b : R) : logsumexp [a; b] = ln (exp a + exp b).
Proof.
  unfold logsumexp, amax. cbn [fold_left map vsum fold_right].
  set (m := Rmax a b). rewrite Rplus_0_r.
  replace (exp (a - m) + exp (b - m)) with (exp (- m) * (exp a + exp b)).
  - rewrite ln_mult.
    + rewrite ln_exp. ring.
    + apply exp_pos.
    + pose proof (exp_pos a). pose proof (exp_pos b). lra.
  - unfold Rminus. rewrite !exp_plus. ring.
Qed.

Section MoreDensityProperties.

Variable PRNGKey : Type.

(** X17: the rotation term of the base potential is, molecule by molecule,
    the logarithm of the sum of the densities at [q] and at [-q]: taking the
    maximum out before exponentiating does not change its value. *)
Theorem potential_sums_both_covers (self : BaseDensity PRNGKey) (s : State.t) :
  BaseDensity_potential PRNGKey self s
  = - (vsum (map (fun p => ln (exp (fst p) + exp (snd p)))
               (combine (data (log_prob PRNGKey (rot_model PRNGKey self) (State.rot s)))
                        (data (log_prob PRNGKey (rot_model PRNGKey self)
                                        (neg (State.rot s))))))
       + vsum (data (log_prob PRNGKey (base_aux_model PRNGKey self) (State.aux s)))
       + vsum (data (log_prob PRNGKey (pos_model PRNGKey self) (State.pos s)))).
Proof.
  unfold BaseDensity_potential, logsumexp_stack2. cbn [data].
  do 3 f_equal. f_equal. apply map_ext. intros [a b]. apply logsumexp_pair.
Qed.

Variable split : PRNGKey -> PRNGKey * PRNGKey.
Variable random_normal : PRNGKey -> list nat -> ndarray.
Variable random_randint : PRNGKey -> nat -> nat -> nat.

(** Without a dataset, [sample] is not implemented. *)
Lemma sample_without_data_is_not_implemented (self : TargetDensity PRNGKey) (key : PRNGKey) :
  target_data PRNGKey self = None ->
  TargetDensity_sample PRNGKey split random_normal random_randint self key
  = inl (Exn NotImplementedError "Sampling without provided data is not implemented.").
Proof. intros H. unfold TargetDensity_sample. rewrite H. reflexivity. Qed.

(** X18: with a dataset, the positions, the box and the force of a sample
    are those of one and the same frame, the one the drawn index names; the
    positions come in rows of four sites, the box has the zero minimum
    corner, and the log-density returned is exactly zero. *)
Theorem sample_draws_one_frame (self : TargetDensity PRNGKey) (key : PRNGKey)
        (d : Data.t) (p b : ndarray) (n : nat) :
  target_data PRNGKey self = Some d ->
  let idx := random_randint (fst (split key)) 0%nat (length (Data.pos d)) in
  nth_error (Data.pos d) idx = Some p ->
  nth_error (Data.box d) idx = Some b ->
  length (data p) = (n * 12)%nat ->
  match Data.force d with
  | Some f => (idx < length f)%nat
  | None => True
  end ->
  exists t,
    TargetDensity_sample PRNGKey split random_normal random_randint self key = inr t
    /\ ldj t = mk_ndarray [] [0]
    /\ AugmentedData.pos (obj t) = mk_ndarray [n; 4; 3]%nat (data p)
    /\ AugmentedData.box (obj t) = mk_SimulationBox b (jnp_zeros [3%nat])
    /\ AugmentedData.force (obj t)
       = match Data.force d with
         | Some f => nth_error f idx
         | None => None
         end.
Proof.
  intros Hd idx Hp Hb Hlen Hf.
  unfold TargetDensity_sample, next. rewrite Hd.
  destruct (split key) as [k1 c1] eqn:E1. cbn [fst] in idx. fold idx.
  unfold getitem. rewrite Hb, Hp. unfold reshape_sites.
  rewrite Hlen, infer_axis_exact by lia.
  destruct (Data.force d) as [f|].
  - destruct (nth_error f idx) as [x|] eqn:Ex.
    + destruct (split c1) as [k2 c2]. destruct (split c2) as [k3 c3].
      eexists. split; [reflexivity|]. cbn [obj ldj AugmentedData.pos AugmentedData.box
                                           AugmentedData.force].
      repeat split; reflexivity.
    + apply nth_error_None in Ex. lia.
  - destruct (split c1) as [k2 c2]. destruct (split c2) as [k3 c3].
    eexists. split; [reflexivity|]. repeat split; reflexivity.
Qed.

(** X19: the box of a target density with data has the size of the first
    box entry of the dataset, for a three-entry box: the default minimum
    corner is zero. *)
Theorem box_size_is_first_entry (self : TargetDensity PRNGKey) (d : Data.t)
        (b : ndarray) (others : list ndarray) :
  target_data PRNGKey self = Some d ->
  Data.box d = b :: others ->
  shape b = [3%nat] ->
  well_shaped b ->
  exists bx, TargetDensity_box PRNGKey self = (self, inr bx) /\ size bx = b.
Proof.
  intros Hd Hb Hs Hw. unfold TargetDensity_box. rewrite Hd, Hb. cbn [getitem nth_error].
  eexists. split; [reflexivity|].
  unfold size, SimulationBox_of, jnp_zeros. cbn [max min shape data size_of fold_right].
  destruct b as [sh dat]. cbn [shape data] in *. subst sh. f_equal.
  unfold well_shaped in Hw. cbn [shape data size_of fold_right] in Hw.
  destruct dat as [|x [|y [|z [|? ?]]]]; try discriminate.
  unfold vsub. cbn. f_equal; [|f_equal; [|f_equal]]; lra.
Qed.

End MoreDensityProperties.

(** Cutting the concatenation of [n] rows of [k] entries back into rows of
    [k] gives the rows. *)
Lemma chunks_concat (k : nat) (rows : list vec) :
  Forall (fun r => length r = k) rows ->
  chunks k (length rows) (concat rows) = rows.
Proof.
  induction 1 as [|r rows Hr Hall IH]; [reflexivity|].
  unfold chunks in *. cbn [length seq map concat].
  rewrite Nat.mul_0_l. cbn [skipn]. rewrite firstn_app, Hr, Nat.sub_diag.
  cbn [firstn]. rewrite app_nil_r, firstn_exact by exact Hr. f_equal.
  rewrite <- seq_shift, map_map. rewrite <- IH at 2. apply map_ext. intros i.
  f_equal. replace (S i * k)%nat with (length r + i * k)%nat by lia.
  rewrite skipn_app, skipn_all2, Nat.add_comm, Nat.add_sub by lia. reflexivity.
Qed.

Section BaseFromSpecsProperties.

Variable PRNGKey : Type.
Variable VonMisesFisher : ndarray -> ndarray -> Distribution PRNGKey.
Variable Normal : ndarray -> ndarray -> Distribution PRNGKey.

(** X20: the parameters [from_specs] hands to the distributions are
    well-shaped arrays, one line per molecule; every rotation mode is the
    unit quaternion [(1, 0, 0, 0)], every concentration is that of the
    specification, every mean is 0 and every standard deviation is 1. *)
Theorem from_specs_parameters_are_valid (system_specs : SystemSpecification)
        (base_specs : BaseSpecification) (box : SimulationBox)
        (auxiliary_shape : list nat) :
  let n := num_molecules system_specs in
  exists rot_modes rot_conc pos_means pos_stds aux_means aux_stds : ndarray,
    BaseDensity_from_specs PRNGKey VonMisesFisher Normal system_specs base_specs box
                           auxiliary_shape
    = BaseDensity_init PRNGKey VonMisesFisher Normal box rot_modes rot_conc
                       pos_means pos_stds aux_means aux_stds
    /\ (shape rot_modes = [n; 4%nat] /\ well_shaped rot_modes
        /\ chunks 4 n (data rot_modes) = repeat [1; 0; 0; 0] n
        /\ norm [1; 0; 0; 0] = 1)
    /\ (shape rot_conc = [n] /\ well_shaped rot_conc
        /\ Forall (fun c => c = rot_concentration base_specs) (data rot_conc))
    /\ (shape pos_means = [n; 3%nat] /\ well_shaped pos_means
        /\ Forall (fun m => m = 0) (data pos_means))
    /\ (shape pos_stds = [n; 3%nat] /\ well_shaped pos_stds
        /\ Forall (fun s => s = 1) (data pos_stds))
    /\ (shape aux_means = auxiliary_shape /\ well_shaped aux_means
        /\ Forall (fun m => m = 0) (data aux_means))
    /\ (shape aux_stds = auxiliary_shape /\ well_shaped aux_stds
        /\ Forall (fun s => s = 1) (data aux_stds)).
Proof.
  intros n. unfold BaseDensity_from_specs. fold n.
  do 6 eexists. split; [reflexivity|].
  assert (Hrows : Forall (fun r : vec => length r = 4%nat) (repeat [1; 0; 0; 0] n)).
  { apply Forall_forall. intros r Hr. apply repeat_spec in Hr. now subst. }
  assert (Hfill : forall (s : list nat) (v : R),
             well_shaped (jnp_full s v) /\ Forall (fun x => x = v) (data (jnp_full s v))).
  { intros s v. unfold well_shaped, jnp_full. cbn [shape data]. split.
    - apply repeat_length.
    - apply Forall_forall. intros x Hx. now apply repeat_spec in Hx. }
  repeat split; try reflexivity.
  - unfold well_shaped, jnp_tile_rows. cbn [shape data].
    rewrite (concat_uniform_length 4) by exact Hrows. rewrite repeat_length. simpl. lia.
  - unfold jnp_tile_rows. cbn [data].
    rewrite <- (repeat_length [1; 0; 0; 0] n) at 1. apply chunks_concat. exact Hrows.
  - unfold norm. simpl. replace (1 * 1 + (0 * 0 + (0 * 0 + (0 * 0 + 0)))) with 1 by ring.
    apply sqrt_1.
  - unfold well_shaped, scale_array, vscale. cbn [shape data].
    rewrite length_map. apply (Hfill [n] 1).
  - unfold scale_array, vscale. cbn [data]. apply Forall_forall. intros c Hc.
    apply in_map_iff in Hc as (x & <- & Hx). apply repeat_spec in Hx. subst. ring.
  - apply (Hfill [n; 3%nat] 0).
  - apply (Hfill [n; 3%nat] 0).
  - apply (Hfill [n; 3%nat] 1).
  - apply (Hfill [n; 3%nat] 1).
  - apply (Hfill auxiliary_shape 0).
  - apply (Hfill auxiliary_shape 0).
  - apply (Hfill auxiliary_shape 1).
  - apply (Hfill auxiliary_shape 1).
Qed.

End BaseFromSpecsProperties.

(** ** Building the oracle *)

Section ConstructionProperties.

Variable openmm : OpenMM.
Variable np_empty : Uninitialized.
Variable MOLAR_GAS_CONSTANT_R : R.
Variable model_box : WaterModel -> list vec.
Variable model_positions : WaterModel -> vec.
Variable load_from_json : string -> exn + WaterModel.
Variable specs_path : SystemSpecification -> string.
Variable specs_str : SystemSpecification -> string.
Variable specs_temperature : SystemSpecification -> R.

Let from_specs :=
  OpenMMEnergyModel_from_specs openmm MOLAR_GAS_CONSTANT_R model_box model_positions
                               load_from_json specs_path specs_str specs_temperature.

(** X21: an oracle built by [from_specs] has the policy [LogWarning], the
    thermal energy [R * temperature] and a context holding the box and the
    positions of the loaded model; on a batch of valid shapes it therefore
    returns a result whatever the engine does with the samples, also when
    the call asks for [RaiseException]. *)
Theorem oracle_from_specs_logs_and_returns (specs : SystemSpecification)
        (w w1 : World) (oracle : OpenMMEnergyModel) :
  from_specs specs w = (w1, inr oracle) ->
  (error_handling oracle = LogWarning
   /\ kbT oracle = MOLAR_GAS_CONSTANT_R * specs_temperature specs
   /\ context w1 = mk_Context (model_box (model oracle)) (model_positions (model oracle))
   /\ warnings w1 = warnings w)
  /\ (forall (pos : ndarray) (box : option ndarray) (n : nat),
        (0 < n_atoms (model oracle))%nat ->
        length (data pos) = (n * (n_atoms (model oracle) * 3))%nat ->
        box_accepted openmm box ->
        shape (vs_mask (model oracle)) = [n_atoms (model oracle); 3%nat] ->
        exists w2 result,
          compute_energies_and_forces openmm np_empty oracle pos box (Some RaiseException) w1
          = (w2, inr result)).
Proof.
  unfold from_specs, OpenMMEnergyModel_from_specs. intros H.
  apply bind_ret_inv in H as (w0 & m & Hload & H).
  assert (w0 = w) as ->.
  { destruct (load_from_json _); unfold lift, ret, raise in Hload; now inversion Hload. }
  unfold OpenMMEnergyModel_init, bind, setPeriodicBoxVectors, setPositions in H.
  destruct (setPeriodicBoxVectors_error openmm (model_box m)); [discriminate|].
  cbn [context positions warnings periodicBoxVectors] in H.
  destruct (setPositions_error openmm (model_positions m)); [discriminate|].
  inversion H; subst. clear H. cbn [error_handling kbT model context warnings].
  split; [repeat split|].
  intros pos box n Hpos Hlen Hbox Hmask.
  set (oracle := mk_OpenMMEnergyModel _ m LogWarning) in *.
  assert (Hpol : error_handling oracle <> RaiseException) by discriminate.
  rewrite (compute_energies_and_forces_prologue openmm np_empty oracle pos box _ _ n
             Hpos Hlen Hbox Hmask).
  erewrite bind_eq.
  2:{ apply (loop_nonraising openmm np_empty oracle _ Hpol).
      - cbn [fst]. rewrite length_map, length_seq, chunks_length. reflexivity.
      - cbn [snd]. rewrite length_map, length_seq, chunks_length. reflexivity. }
  unfold ret. eauto.
Qed.

End ConstructionProperties.

(** ** What a call leaves in the engine *)

Section EngineAfterCall.

Variable openmm : OpenMM.
Variable np_empty : Uninitialized.
Variable oracle : OpenMMEnergyModel.

Let molecules : nat := n_molecules (water_model oracle).
Let sites : nat := n_sites (water_model oracle).

(** After a returning call of the oracle, the periodic box is the one it was
    given, a 3x3 matrix, or the one the engine had. *)
Lemma returning_call_box (pos : ndarray) (box : option ndarray)
      (policy : option ErrorHandling) (w w' : World) (out : ndarray * ndarray) :
  compute_energies_and_forces openmm np_empty oracle pos box policy w = (w', inr out) ->
  match box with
  | Some b => shape b = [3; 3]%nat /\ periodicBoxVectors (context w') = rows b
  | None => periodicBoxVectors (context w') = periodicBoxVectors (context w)
  end.
Proof.
  unfold compute_energies_and_forces. intros H.
  apply bind_ret_inv in H as (w1 & samples & Hs & H).
  assert (w1 = w) as ->.
  { destruct (reshape_samples _ _); unfold lift, ret, raise in Hs; now inversion Hs. }
  apply bind_ret_inv in H as (w2 & [] & Hbox & H).
  apply bind_ret_inv in H as (w3 & [] & Hassert & H).
  assert (w3 = w2) as ->.
  { unfold assert in Hassert. destruct (shape_eq_dec _ _); unfold ret, raise in Hassert;
      now inversion Hassert. }
  apply bind_ret_inv in H as (w4 & bufs & Hloop & H).
  unfold ret in H. inversion H; subst. clear H.
  pose proof (loop_keeps_box openmm np_empty oracle samples 0
                (map (energies_buffer np_empty) (seq 0 (length samples)),
                 map (fun i => map (forces_buffer np_empty i)
                                   (seq 0 (n_atoms (model oracle) * 3)))
                     (seq 0 (length samples))) w2) as Hk.
  rewrite Hloop in Hk. cbn [fst] in Hk. rewrite Hk.
  destruct box as [b|].
  - unfold bind, assert in Hbox. destruct (shape_eq_dec _ _) as [E|]; [|discriminate].
    cbn [ret] in Hbox. unfold setPeriodicBoxVectors in Hbox.
    destruct (setPeriodicBoxVectors_error openmm (rows b)); inversion Hbox.
    split; [exact E | reflexivity].
  - unfold ret in Hbox. now inversion Hbox.
Qed.

(** X22: a box [(x, y, z)] passed to the bridge leaves the engine, after a
    returning call, with the three axis-aligned box vectors of these
    lengths. *)
Theorem bridge_installs_orthorhombic_box (pos b : ndarray) (has_batch_dim : bool)
        (w w' : World) (out : ndarray * ndarray) (x y z : R) :
  compute_energy_and_forces openmm np_empty oracle pos (Some b) has_batch_dim w
    = (w', inr out) ->
  data b = [x; y; z] ->
  periodicBoxVectors (context w') = [[x; 0; 0]; [0; y; 0]; [0; 0; z]].
Proof.
  intros H Hb. destruct out as [energies forces].
  apply bridge_returns in H. cbv zeta in H.
  destruct H as (atoms & out & Hrun & _).
  apply returning_call_box in Hrun. cbn [option_map] in Hrun.
  destruct Hrun as [Hs ->]. unfold jnp_diag in *. cbn [shape] in Hs.
  inversion Hs as [Hn]. unfold rows. cbn [shape data nth]. rewrite Hn, Hb. reflexivity.
Qed.

(** X23: the bridge returns only when the atom count of the model is
    [n_molecules * n_sites]: with any other atom count the shapes the oracle
    produces are refused and the call raises. *)
Theorem bridge_returns_only_for_matching_topology (pos : ndarray) (box : option ndarray)
        (has_batch_dim : bool) (w w' : World) (out : ndarray * ndarray) :
  well_shaped pos ->
  compute_energy_and_forces openmm np_empty oracle pos box has_batch_dim w
    = (w', inr out) ->
  n_atoms (water_model oracle) = (molecules * sites)%nat.
Proof.
  intros Hwf H. destruct out as [energies forces].
  apply bridge_returns in H. cbv zeta in H.
  destruct H as (atoms & [oe ofs] & Hrun & Htl & _ & Hsf & Hinfer & _).
  apply compute_energies_and_forces_shapes in Hrun as (n & _ & _ & Hshape).
  cbn [snd] in *. rewrite Hsf in Hshape. inversion Hshape as [[Hn Ha]].
  apply infer_axis_inr in Hinfer as [Hk Hlen].
  unfold well_shaped in Hwf. rewrite Hwf in Hlen. unfold water_model in *.
  rewrite <- Ha. fold molecules sites in Htl |- *.
  destruct has_batch_dim.
  - destruct (shape pos) as [|batch rest]; [discriminate|]. cbn [tl hd] in *. subst rest.
    cbn [size_of fold_right] in Hlen. nia.
  - rewrite Htl in Hlen. cbn [size_of fold_right] in Hlen. nia.
Qed.

End EngineAfterCall.

Section EngineAfterBatch.

Variable openmm : OpenMM.
Variable np_empty : Uninitialized.
Variable model : OpenMMEnergyModel.

Let molecules : nat := n_molecules (water_model model).
Let sites : nat := n_sites (water_model model).
Let k : nat := (n_atoms (water_model model) * 3)%nat.

Hypothesis kbT_nonzero : kbT model <> 0.
Hypothesis atoms_sites : n_atoms (water_model model) = (molecules * sites)%nat.
Hypothesis atoms_positive : (0 < n_atoms (water_model model))%nat.
Hypothesis mask_shape :
  shape (vs_mask (water_model model)) = [n_atoms (water_model model); 3%nat].

Lemma positions_after_queries (samples : list vec) (p : vec) (w : World) :
  positions (context (fold_left (after_query openmm) (samples ++ [p]) w))
  = virtual_sites openmm p.
Proof. rewrite fold_left_app. reflexivity. Qed.

(** X24: after a batched call through the bridge on configurations the
    engine all accepts, the engine holds the positions of the last
    configuration of the batch, with its virtual sites placed: the call is
    not free of side effects. *)
Theorem batch_leaves_last_configuration (pos : ndarray) (box : option ndarray)
        (w : World) (n : nat) :
  shape pos = [n; molecules; sites; 3%nat] ->
  length (data pos) = (n * k)%nat ->
  (0 < n)%nat ->
  match box with
  | Some b => shape b = [3%nat]
              /\ setPeriodicBoxVectors_error openmm (rows (jnp_diag b)) = None
  | None => True
  end ->
  Forall (accepted openmm
            (periodicBoxVectors (context (with_box (option_map jnp_diag box) w))))
         (chunks k n (data pos)) ->
  positions (context (fst (compute_energy_and_forces openmm np_empty model pos box true w)))
  = virtual_sites openmm (last (chunks k n (data pos)) []).
Proof.
  intros Hshape Hlen Hn Hbox Hacc.
  rewrite (compute_energy_and_forces_batch openmm np_empty model kbT_nonzero atoms_sites
             atoms_positive mask_shape pos box w n Hshape Hlen Hn Hbox Hacc).
  cbn [fst].
  destruct (exists_last (l := chunks k n (data pos))) as (front & p & E).
  { intros E. apply (f_equal (@length vec)) in E. rewrite chunks_length in E.
    simpl in E. lia. }
  fold k. rewrite E, last_last. apply positions_after_queries.
Qed.

End EngineAfterBatch.

(** ** The further properties on the concrete instances *)

Ltac decide_failure := unfold failure; simpl; decide_reals; reflexivity.

Lemma nonraising_policy_returns_every_entry_witness :
  let samples := chunks 6 2 (data half_rejected_batch) in
  compute_energies_and_forces two_site_openmm sevens two_site_oracle
    half_rejected_batch None None fresh_world
  = (fold_left (after_iteration two_site_openmm two_site_oracle unit_box) samples fresh_world,
     inr (mk_ndarray [2%nat]
            (map (written_energy two_site_openmm sevens two_site_oracle unit_box)
                 (indexed 0 samples)),
          mk_ndarray [2; 2; 3]%nat
            (concat (map (written_force two_site_openmm sevens two_site_oracle unit_box)
                         (indexed 0 samples))))).
Proof.
  apply (nonraising_policy_returns_every_entry two_site_openmm sevens two_site_oracle
           half_rejected_batch None None fresh_world 2).
  - discriminate.
  - simpl. lia.
  - reflexivity.
  - exact I.
  - reflexivity.
Defined.

Lemma warnings_are_the_failures_witness :
  warnings (fst (compute_energies_and_forces two_site_openmm sevens two_site_oracle
                   half_rejected_batch None None fresh_world))
  = warnings fresh_world
      ++ logged two_site_openmm two_site_oracle unit_box (chunks 6 2 (data half_rejected_batch)).
Proof.
  apply (warnings_are_the_failures two_site_openmm sevens two_site_oracle
           half_rejected_batch None None fresh_world 2).
  - discriminate.
  - simpl. lia.
  - reflexivity.
  - exact I.
  - reflexivity.
Defined.

Lemma raise_policy_aborts_at_first_failure_witness :
  compute_energies_and_forces two_site_openmm sevens raising_oracle
    half_rejected_batch None None fresh_world
  = (after_attempt two_site_openmm
       (fold_left (after_attempt two_site_openmm) [[1; 0; 0; 0; 0; 0]] fresh_world)
       [-1; 0; 0; 0; 0; 0],
     inl (Exn OpenMMException "engine failure")).
Proof.
  apply (raise_policy_aborts_at_first_failure two_site_openmm sevens raising_oracle
           half_rejected_batch None None fresh_world 2 [[1; 0; 0; 0; 0; 0]]
           [-1; 0; 0; 0; 0; 0] []).
  - reflexivity.
  - simpl. lia.
  - reflexivity.
  - exact I.
  - reflexivity.
  - reflexivity.
  - constructor; [decide_failure | constructor].
  - decide_failure.
Defined.

Lemma bad_batch_size_raises_ValueError_witness :
  compute_energies_and_forces two_site_openmm sevens two_site_oracle ragged_batch None None
    fresh_world
  = (fresh_world, inl (Exn ValueError "cannot reshape array")).
Proof.
  apply (bad_batch_size_raises_ValueError two_site_openmm sevens two_site_oracle).
  right. simpl. lia.
Defined.

Lemma box_of_other_shape_fails_untouched_witness :
  compute_energies_and_forces two_site_openmm sevens two_site_oracle
    half_rejected_batch (Some cubic_box) None fresh_world
  = (fresh_world, inl (Exn AssertionError "box.shape = (3,)")).
Proof.
  apply (box_of_other_shape_fails_untouched two_site_openmm sevens two_site_oracle
           half_rejected_batch cubic_box None fresh_world 2).
  - simpl. lia.
  - reflexivity.
  - discriminate.
Defined.

Lemma mask_of_other_shape_fails_after_box_witness :
  compute_energies_and_forces two_site_openmm sevens flat_mask_oracle
    half_rejected_batch (Some (jnp_diag cubic_box)) None fresh_world
  = (with_box (Some (jnp_diag cubic_box)) fresh_world, inl (Exn AssertionError "")).
Proof.
  apply (mask_of_other_shape_fails_after_box two_site_openmm sevens flat_mask_oracle
           half_rejected_batch (Some (jnp_diag cubic_box)) None fresh_world 2).
  - simpl. lia.
  - reflexivity.
  - split; reflexivity.
  - discriminate.
Defined.

Lemma call_leaves_the_given_box_witness :
  periodicBoxVectors
    (context (fst (compute_energies_and_forces two_site_openmm sevens raising_oracle
                     half_rejected_batch (Some (jnp_diag cubic_box)) None fresh_world)))
  = rows (jnp_diag cubic_box).
Proof.
  apply (call_leaves_the_given_box two_site_openmm sevens raising_oracle
           half_rejected_batch (Some (jnp_diag cubic_box)) None fresh_world 2).
  - simpl. lia.
  - reflexivity.
  - split; reflexivity.
  - reflexivity.
Defined.


Lemma returned_arrays_are_well_shaped_witness :
  let n := (length (data half_rejected_batch) / (n_atoms (model two_site_oracle) * 3))%nat in
  let energies := mk_ndarray [2%nat] [0.5; 7] in
  let forces := mk_ndarray [2; 2; 3]%nat [2.5; 2.5; 2.5; 0; 0; 0; 7; 7; 7; 0; 0; 0] in
  shape energies = [n] /\ well_shaped energies
  /\ shape forces = [n; n_atoms (model two_site_oracle); 3%nat] /\ well_shaped forces.
Proof.
  apply (returned_arrays_are_well_shaped two_site_openmm sevens two_site_oracle
           (fun _ _ => eq_refl) eq_refl half_rejected_batch None None fresh_world _ _ _
           half_rejected_run).
Defined.

Lemma bridge_refuses_other_shapes_witness :
  compute_energy_and_forces two_site_openmm sevens two_site_oracle ragged_batch
    (Some cubic_box) false fresh_world
  = (fresh_world, inl (Exn AssertionError "")).
Proof.
  apply (bridge_refuses_other_shapes two_site_openmm sevens two_site_oracle).
  discriminate.
Defined.


Lemma surrogate_is_positive_definite_witness :
  0 <= Cutoff.approximate_potential [1; 2] [3; 5]
  /\ (Cutoff.approximate_potential [1; 2] [3; 5] = 0 <-> [3; 5] = [1; 2]).
Proof. apply (surrogate_is_positive_definite [1; 2] [3; 5]). reflexivity. Defined.

Lemma box_size_is_first_entry_witness :
  exists bx, TargetDensity_box nat one_frame_density = (one_frame_density, inr bx)
             /\ size bx = cubic_box.
Proof.
  apply (box_size_is_first_entry nat one_frame_density one_frame cubic_box []);
    reflexivity.
Defined.

Lemma sample_draws_one_frame_witness :
  exists t,
    TargetDensity_sample nat counter_split (fun _ s => jnp_zeros s) (fun _ lo _ => lo)
                         one_frame_density 0%nat = inr t
    /\ ldj t = mk_ndarray [] [0]
    /\ AugmentedData.pos (obj t)
       = mk_ndarray [1; 4; 3]%nat [0; 0; 0; 1; 0; 0; 0; 1; 0; 0; 0; 1]
    /\ AugmentedData.box (obj t) = mk_SimulationBox cubic_box (jnp_zeros [3%nat])
    /\ AugmentedData.force (obj t) = None.
Proof.
  apply (sample_draws_one_frame nat counter_split (fun _ s => jnp_zeros s) (fun _ lo _ => lo)
           one_frame_density 0%nat one_frame
           (mk_ndarray [12%nat] [0; 0; 0; 1; 0; 0; 0; 1; 0; 0; 0; 1]) cubic_box 1);
    reflexivity.
Defined.

Lemma one_configuration_accepted :
  accepted two_site_openmm unit_box (data one_configuration).
Proof. split; simpl; decide_reals; reflexivity. Qed.

Lemma two_site_kbT : kbT two_site_oracle <> 0.
Proof. simpl. lra. Qed.

Lemma one_configuration_bridge_run :
  compute_energy_and_forces two_site_openmm sevens two_site_oracle one_configuration None
    false fresh_world
  = (after_query two_site_openmm fresh_world (data one_configuration),
     inr (mk_ndarray [] [reported_energy two_site_openmm two_site_oracle unit_box
                           (data one_configuration)],
          mk_ndarray (shape one_configuration)
            (reported_force two_site_openmm two_site_oracle unit_box
               (data one_configuration)))).
Proof.
  apply (compute_energy_and_forces_single two_site_openmm sevens two_site_oracle
           two_site_kbT eq_refl (Nat.lt_0_succ 1) eq_refl one_configuration None fresh_world
           eq_refl eq_refl I one_configuration_accepted).
Qed.

Lemma bridge_returns_the_shape_of_pos_witness :
  shape (mk_ndarray (shape one_configuration)
           (reported_force two_site_openmm two_site_oracle unit_box (data one_configuration)))
  = shape one_configuration
  /\ shape (mk_ndarray [] [reported_energy two_site_openmm two_site_oracle unit_box
                             (data one_configuration)])
     = (if false then [hd 0%nat (shape one_configuration)] else []).
Proof.
  apply (bridge_returns_the_shape_of_pos two_site_openmm sevens two_site_oracle
           one_configuration None false fresh_world _ _ _ one_configuration_bridge_run).
Defined.

Lemma one_configuration_vjp_run :
  eval_vjp two_site_openmm sevens two_site_oracle one_configuration None false 3 fresh_world
  = (after_query two_site_openmm fresh_world (data one_configuration),
     inr (mk_ndarray [] [reported_energy two_site_openmm two_site_oracle unit_box
                           (data one_configuration)],
          mk_ndarray (shape one_configuration)
            (vscale (- 3) (reported_force two_site_openmm two_site_oracle unit_box
                             (data one_configuration))))).
Proof.
  unfold eval_vjp, eval_fwd.
  erewrite bind_eq.
  2:{ erewrite bind_eq by exact one_configuration_bridge_run. reflexivity. }
  reflexivity.
Qed.

Lemma gradient_vanishes_on_virtual_sites_witness :
  nth 4 (vscale (- 3) (reported_force two_site_openmm two_site_oracle unit_box
                         (data one_configuration))) 1 = 0.
Proof.
  apply (gradient_vanishes_on_virtual_sites two_site_openmm sevens two_site_oracle
           (fun _ _ => eq_refl) eq_refl one_configuration None 3 fresh_world _ _ _ 4%nat
           one_configuration_vjp_run).
  - simpl. lia.
  - reflexivity.
Defined.

Lemma oracle_from_specs_logs_and_returns_witness :
  let oracle := mk_OpenMMEnergyModel (1 * 2) two_site_model LogWarning in
  let w1 := mk_World (mk_Context unit_box [0; 0; 0; 0; 0; 0]) [] in
  (error_handling oracle = LogWarning
   /\ kbT oracle = 1 * 2
   /\ context w1 = mk_Context unit_box [0; 0; 0; 0; 0; 0]
   /\ warnings w1 = warnings fresh_world)
  /\ (forall (pos : ndarray) (box : option ndarray) (n : nat),
        (0 < n_atoms (model oracle))%nat ->
        length (data pos) = (n * (n_atoms (model oracle) * 3))%nat ->
        box_accepted two_site_openmm box ->
        shape (vs_mask (model oracle)) = [n_atoms (model oracle); 3%nat] ->
        exists w2 result,
          compute_energies_and_forces two_site_openmm sevens oracle pos box
            (Some RaiseException) w1
          = (w2, inr result)).
Proof.
  apply (oracle_from_specs_logs_and_returns two_site_openmm sevens 1
           (fun _ => unit_box) (fun _ => [0; 0; 0; 0; 0; 0]) (fun _ => inr two_site_model)
           (fun _ => "data"%string) (fun _ => "water"%string) (fun _ => 2)
           (mk_SystemSpecification 1) fresh_world).
  reflexivity.
Defined.

Lemma accepted_batch_run_hypotheses :
  Forall (accepted two_site_openmm
            (periodicBoxVectors
               (context (with_box (option_map jnp_diag (Some cubic_box)) fresh_world))))
         (chunks (n_atoms (water_model two_site_oracle) * 3) 2 (data accepted_batch)).
Proof. simpl. repeat constructor; simpl; decide_reals; reflexivity. Qed.

Lemma accepted_batch_run :
  compute_energy_and_forces two_site_openmm sevens two_site_oracle accepted_batch
    (Some cubic_box) true fresh_world
  = (fold_left (after_query two_site_openmm) (chunks 6 2 (data accepted_batch))
       (with_box (Some (jnp_diag cubic_box)) fresh_world),
     inr (mk_ndarray [2%nat]
            (map (reported_energy two_site_openmm two_site_oracle (rows (jnp_diag cubic_box)))
                 (chunks 6 2 (data accepted_batch))),
          mk_ndarray (shape accepted_batch)
            (concat (map (reported_force two_site_openmm two_site_oracle
                            (rows (jnp_diag cubic_box)))
                         (chunks 6 2 (data accepted_batch)))))).
Proof.
  apply (compute_energy_and_forces_batch two_site_openmm sevens two_site_oracle
           two_site_kbT eq_refl (Nat.lt_0_succ 1) eq_refl accepted_batch (Some cubic_box)
           fresh_world 2 eq_refl eq_refl (Nat.lt_0_succ 1) (conj eq_refl eq_refl)
           accepted_batch_run_hypotheses).
Qed.

Lemma bridge_installs_orthorhombic_box_witness :
  periodicBoxVectors
    (context (fold_left (after_query two_site_openmm) (chunks 6 2 (data accepted_batch))
                (with_box (Some (jnp_diag cubic_box)) fresh_world)))
  = [[3; 0; 0]; [0; 3; 0]; [0; 0; 3]].
Proof.
  apply (bridge_installs_orthorhombic_box two_site_openmm sevens two_site_oracle
           accepted_batch cubic_box true fresh_world _ _ 3 3 3 accepted_batch_run).
  reflexivity.
Defined.

Lemma bridge_returns_only_for_matching_topology_witness :
  n_atoms (water_model two_site_oracle)
  = (n_molecules (water_model two_site_oracle) * n_sites (water_model two_site_oracle))%nat.
Proof.
  apply (bridge_returns_only_for_matching_topology two_site_openmm sevens two_site_oracle
           accepted_batch (Some cubic_box) true fresh_world _ _ eq_refl accepted_batch_run).
Defined.

Lemma batch_leaves_last_configuration_witness :
  positions
    (context (fst (compute_energy_and_forces two_site_openmm sevens two_site_oracle
                     accepted_batch (Some cubic_box) true fresh_world)))
  = virtual_sites two_site_openmm
      (last (chunks (n_atoms (water_model two_site_oracle) * 3) 2 (data accepted_batch)) []).
Proof.
  apply (batch_leaves_last_configuration two_site_openmm sevens two_site_oracle
           two_site_kbT eq_refl (Nat.lt_0_succ 1) eq_refl accepted_batch (Some cubic_box)
           fresh_world 2 eq_refl eq_refl (Nat.lt_0_succ 1) (conj eq_refl eq_refl)
           accepted_batch_run_hypotheses).
Defined.
